(** * Freightos API client: rate limiter, request builder, response normalizer

    A shallow embedding of [freightos-client.ts] (class [FreightosClient]).

    Modelling conventions.
    - JavaScript numbers that come from JSON or from the command line are
      exact rationals ([Q]); epoch-millisecond timestamps and call counts are
      integers ([Z]).  A [Date] is its epoch-millisecond value.
    - The process environment is explicit: the rate-limit file, whether the
      cache directory accepts writes, the readings of [Date.now()] and the
      network calls issued so far live in a [World]; the wall clock, the
      upstream server and the locale formatting of times are parameters.
    - Code that can throw runs in a state-and-exception monad [Eff] whose
      exceptions keep the world reached so far (a JavaScript [throw] does not
      undo a file write). *)

From Stdlib Require Import ZArith QArith Qround List String Ascii Bool Lia.
From Stdlib Require Import Permutation DecimalString SpecFloat.
Import ListNotations.
Open Scope string_scope.
Open Scope Z_scope.

(** ** JavaScript primitives *)

Module JS.

(** [Boolean(s)] for a string: only the empty string is falsy. *)
Definition truthy (s : string) : bool :=
  negb (s =? "")%string.

(** [s || d] where [s] is a string or [undefined]. *)
Definition or_else (s : option string) (d : string) : string :=
  match s with
  | Some x => if truthy x then x else d
  | None => d
  end.

(** [`${n}`] / [n.toString()] for an integer-valued number. *)
Definition show (z : Z) : string :=
  NilZero.string_of_int (Z.to_int z).

(** [Math.round]: nearest integer, ties towards plus infinity. *)
Definition Math_round (q : Q) : Z :=
  Qfloor (q + (1 # 2))%Q.

(** [Math.min(x, ...rest)] on a non-empty argument list. *)
Definition Math_min (x : Z) (rest : list Z) : Z :=
  fold_left Z.min rest x.

(** [xs.join(sep)]. *)
Fixpoint join (sep : string) (xs : list string) : string :=
  match xs with
  | [] => ""
  | [x] => x
  | x :: rest => x ++ sep ++ join sep rest
  end.

(** [s.includes(part)]: [part] occurs in [s]. *)
Definition includes (s part : string) : Prop :=
  exists before after, s = before ++ part ++ after.

End JS.

(** ** Rate limit constants *)

Definition RATE_LIMIT : Z := 100.
Definition RATE_LIMIT_WINDOW_MS : Z := 60 * 60 * 1000.
Definition RATE_LIMIT_WARNING_THRESHOLD : Z := 80.

(** ** Data model *)

Record FreightosConfig := {
  quoteApiUrl : string;
  webAppUrl : string;
  shipmentsUrl : string
}.

Module QuoteOptions.
Record t := mk {
  origin : string;
  destination : string;
  loadtype : string;
  weight : Q;
  weightUnit : option string;
  width : option Q;
  length : option Q;
  height : option Q;
  dimensionUnit : option string;
  volume : option Q;
  volumeUnit : option string;
  quantity : option Q;
  mode : option string;
  estimate : option bool;
  hazCode : option string
}.
End QuoteOptions.

Record PriceRange := {
  amount : Q;
  currency : string
}.

Module TransitTimes.
Record t := mk {
  min : Q;
  max : Q;
  unit : option string
}.
End TransitTimes.

Module FreightRate.
Record t := mk {
  mode : string;
  minPrice : PriceRange;
  maxPrice : PriceRange;
  transitTimes : TransitTimes.t
}.
End FreightRate.

Record RateLimitStatus := {
  callsInLastHour : Z;
  limit : Z;
  remaining : Z;
  percentUsed : Z;
  resetsAt : option Z;
  warning : option string
}.

(** Raw API response (the upstream format). *)
Module Raw.

Record MoneyAmount := {
  amount : Q;
  currency : string
}.

Record Bound := {
  moneyAmount : MoneyAmount
}.

Record Price := {
  min : Bound;
  max : Bound
}.

Record Transit := {
  unit : string;
  tmin : Q;
  tmax : Q
}.

Record ModeData := {
  mode : string;
  price : Price;
  transitTimes : Transit
}.

(** [mode: RawModeData | RawModeData[]]. *)
Inductive Modes :=
| One (m : ModeData)
| Many (ms : list ModeData).

(** [modes] is the [mode] field, [None] when the document has none;
    [numQuotes] is a count. *)
Record EstimatedFreightRates := {
  modes : option Modes;
  numQuotes : Z
}.

Record ErrorItem := {
  error : string
}.

(** [errors?: string | { error: string }[]]. *)
Inductive Errors :=
| Message (s : string)
| Items (es : list ErrorItem).

(** The [response] envelope of [RawApiResponse]. *)
Record Response := {
  estimatedFreightRates : option EstimatedFreightRates;
  errors : option Errors
}.

End Raw.

Record RawApiResponse := {
  response : Raw.Response
}.

Record QuoteResponse := {
  estimatedFreightRates : option (list FreightRate.t);
  numQuotes : option Z;
  errors : option (list string);
  rateLimit : option RateLimitStatus
}.

(** [const result: QuoteResponse = {}]. *)
Definition emptyQuoteResponse : QuoteResponse :=
  {| estimatedFreightRates := None; numQuotes := None;
     errors := None; rateLimit := None |}.

Definition set_errors (r : QuoteResponse) (es : list string) : QuoteResponse :=
  {| estimatedFreightRates := estimatedFreightRates r; numQuotes := numQuotes r;
     errors := Some es; rateLimit := rateLimit r |}.

Definition set_numQuotes (r : QuoteResponse) (n : Z) : QuoteResponse :=
  {| estimatedFreightRates := estimatedFreightRates r; numQuotes := Some n;
     errors := errors r; rateLimit := rateLimit r |}.

Definition set_estimatedFreightRates (r : QuoteResponse) (rs : list FreightRate.t)
  : QuoteResponse :=
  {| estimatedFreightRates := Some rs; numQuotes := numQuotes r;
     errors := errors r; rateLimit := rateLimit r |}.

Definition set_rateLimit (r : QuoteResponse) (s : RateLimitStatus) : QuoteResponse :=
  {| estimatedFreightRates := estimatedFreightRates r; numQuotes := numQuotes r;
     errors := errors r; rateLimit := Some s |}.

(** ** [URLSearchParams]: an ordered list of name/value pairs *)

Module URLSearchParams.

Definition t := list (string * string).

Definition empty : t := [].

(** [set]: overwrite the first pair named [k] and drop the others, or append. *)
Fixpoint set (k v : string) (ps : t) : t :=
  match ps with
  | [] => [(k, v)]
  | (k', v') :: rest =>
      if (k' =? k)%string
      then (k, v) :: filter (fun p => negb (fst p =? k)%string) rest
      else (k', v') :: set k v rest
  end.

(** [get]: the value of the first pair named [k]. *)
Fixpoint get (k : string) (ps : t) : option string :=
  match ps with
  | [] => None
  | (k', v') :: rest => if (k' =? k)%string then Some v' else get k rest
  end.

(** [delete]: drop every pair named [k]. *)
Definition delete (k : string) (ps : t) : t :=
  filter (fun p => negb (fst p =? k)%string) ps.

(** [toString], given the form-urlencoding of a single component. *)
Definition toString (encode : string -> string) (ps : t) : string :=
  JS.join "&" (map (fun p => encode (fst p) ++ "=" ++ encode (snd p)) ps).

End URLSearchParams.

(** ** The environment *)

Record RateLimitData := {
  calls : list Z
}.

(** Content of [~/.cache/freightos-shipment-manager/ratelimit.json]: absent,
    unreadable or not JSON, or a JSON document whose [calls] field may be
    missing. *)
Inductive RateLimitFile :=
| FileMissing
| FileCorrupt
| FileJson (stored : option (list Z)).

Record HttpRequest := {
  req_url : string;
  req_method : string;
  req_accept : string
}.

(** A resolved [fetch]: [json] is [None] when the body is not valid JSON. *)
Module HttpResponse.
Record t := mk {
  status : Z;
  text : string;
  json : option RawApiResponse
}.

(** [response.ok]: the status is in the range 200-299. *)
Definition ok (r : t) : bool :=
  (200 <=? status r) && (status r <=? 299).
End HttpResponse.

Inductive FetchResult :=
| Resolved (r : HttpResponse.t)
| Rejected (reason : string).

Record World := {
  rateLimitFile : RateLimitFile;
  cacheWritable : bool;
  ticks : nat;
  network : list HttpRequest
}.

(** One more reading of the clock has been taken. *)
Definition tick (w : World) : World :=
  {| rateLimitFile := rateLimitFile w; cacheWritable := cacheWritable w;
     ticks := S (ticks w); network := network w |}.

(** The rate-limit file has been replaced by [f]. *)
Definition written (f : RateLimitFile) (w : World) : World :=
  {| rateLimitFile := f; cacheWritable := cacheWritable w;
     ticks := ticks w; network := network w |}.

(** One more network call has been issued. *)
Definition sent (rq : HttpRequest) (w : World) : World :=
  {| rateLimitFile := rateLimitFile w; cacheWritable := cacheWritable w;
     ticks := ticks w; network := network w ++ [rq] |}.

(** ** State and exceptions *)

Inductive Completion (A : Type) :=
| Return (a : A)
| Throw (message : string).

Arguments Return {A} a.
Arguments Throw {A} message.

Definition Eff (A : Type) : Type := World -> Completion A * World.

Definition ret {A} (a : A) : Eff A :=
  fun w => (Return a, w).

Definition throw {A} (message : string) : Eff A :=
  fun w => (Throw message, w).

Definition bind {A B} (m : Eff A) (k : A -> Eff B) : Eff B :=
  fun w =>
    match m w with
    | (Return a, w') => k a w'
    | (Throw e, w') => (Throw e, w')
    end.

Declare Scope eff_scope.
Delimit Scope eff_scope with eff.
Notation "x <- m ;; k" := (bind m (fun x => k))
  (at level 100, m at next level, right associativity) : eff_scope.
Notation "m ;; k" := (bind m (fun _ => k))
  (at level 100, right associativity) : eff_scope.
Open Scope eff_scope.

(** ** The client *)

Section Client.

(** [clock k] is what the [k]-th call of [Date.now()] in this process reads. *)
Variable clock : nat -> Z.
(** [Date.prototype.toLocaleTimeString], on epoch milliseconds. *)
Variable toLocaleTimeString : Z -> string.
(** [Number.prototype.toString] / template interpolation of a number. *)
Variable numToString : Q -> string.
(** Form-urlencoding of one name or value. *)
Variable encode : string -> string.
(** The upstream server (and the network in front of it). *)
Variable upstream : HttpRequest -> FetchResult.
(** [this.config]. *)
Variable config : FreightosConfig.

Definition Date_now : Eff Z :=
  fun w => (Return (clock (ticks w)), tick w).

(** *** Rate limiting *)

(** Load rate limit data from persistent file. *)
Definition loadRateLimitData : Eff RateLimitData :=
  fun w =>
    match rateLimitFile w with
    | FileJson (Some stored) => (Return {| calls := stored |}, w)
    | FileJson None => (Return {| calls := [] |}, w)
    | FileCorrupt => (Return {| calls := [] |}, w)
    | FileMissing => (Return {| calls := [] |}, w)
    end.

(** Save rate limit data to persistent file; write errors are ignored. *)
Definition saveRateLimitData (data : RateLimitData) : Eff unit :=
  fun w =>
    if cacheWritable w
    then (Return tt, written (FileJson (Some (calls data))) w)
    else (Return tt, w).

(** Clean up old timestamps. *)
Definition cleanOldCalls (calls : list Z) : Eff (list Z) :=
  now <- Date_now ;;
  let cutoff := now - RATE_LIMIT_WINDOW_MS in
  ret (filter (fun timestamp => timestamp >? cutoff) calls).

Definition reachedWarning (callsInLastHour : Z) (resetsAt : option Z) : string :=
  "RATE LIMIT REACHED: " ++ JS.show callsInLastHour ++ "/" ++ JS.show RATE_LIMIT
  ++ " calls used. Wait until "
  ++ JS.or_else (option_map toLocaleTimeString resetsAt) "unknown"
  ++ " for more capacity.".

Definition approachingWarning (callsInLastHour percentUsed remaining : Z) : string :=
  "Rate limit warning: " ++ JS.show callsInLastHour ++ "/" ++ JS.show RATE_LIMIT
  ++ " calls used (" ++ JS.show percentUsed ++ "%). "
  ++ JS.show remaining ++ " remaining this hour.".

(** Body of [getRateLimitStatus] once [recentCalls] is known. *)
Definition statusOf (recentCalls : list Z) : RateLimitStatus :=
  let callsInLastHour := Z.of_nat (List.length recentCalls) in
  let remaining := Z.max 0 (RATE_LIMIT - callsInLastHour) in
  let percentUsed :=
    JS.Math_round ((inject_Z callsInLastHour / inject_Z RATE_LIMIT) * 100)%Q in
  let resetsAt :=
    match recentCalls with
    | c :: rest =>
        if remaining =? 0
        then Some (JS.Math_min c rest + RATE_LIMIT_WINDOW_MS)
        else None
    | [] => None
    end in
  let warning :=
    if callsInLastHour >=? RATE_LIMIT
    then Some (reachedWarning callsInLastHour resetsAt)
    else if callsInLastHour >=? RATE_LIMIT_WARNING_THRESHOLD
    then Some (approachingWarning callsInLastHour percentUsed remaining)
    else None in
  {| callsInLastHour := callsInLastHour;
     limit := RATE_LIMIT;
     remaining := remaining;
     percentUsed := percentUsed;
     resetsAt := resetsAt;
     warning := warning |}.

(** Gets current rate limit status. *)
Definition getRateLimitStatus : Eff RateLimitStatus :=
  data <- loadRateLimitData ;;
  recentCalls <- cleanOldCalls (calls data) ;;
  ret (statusOf recentCalls).

(** Record an API call for rate limiting. *)
Definition recordCall : Eff unit :=
  data <- loadRateLimitData ;;
  recentCalls <- cleanOldCalls (calls data) ;;
  now <- Date_now ;;
  saveRateLimitData {| calls := recentCalls ++ [now] |}.

(** Check if we can make an API call (under rate limit). *)
Definition checkRateLimit : Eff (bool * RateLimitStatus) :=
  status <- getRateLimitStatus ;;
  ret (remaining status >? 0, status).

(** *** Request builder *)

(** [options.weightUnit && options.weightUnit !== "kg"]. *)
Definition explicitWeightUnit (weightUnit : option string) : option string :=
  match weightUnit with
  | Some u => if JS.truthy u && negb (u =? "kg")%string then Some u else None
  | None => None
  end.

(** [`${value}${unit || ""}`], set under [name] when [value] is defined. *)
Definition setMeasure (name : string) (value : option Q) (unit : option string)
  (params : URLSearchParams.t) : URLSearchParams.t :=
  match value with
  | Some v =>
      let unit := JS.or_else unit "" in
      URLSearchParams.set name (numToString v ++ unit) params
  | None => params
  end.

(** [if (value) params.set(name, value)] for an optional string. *)
Definition setIfTruthy (name : string) (value : option string)
  (params : URLSearchParams.t) : URLSearchParams.t :=
  match value with
  | Some v => if JS.truthy v then URLSearchParams.set name v params else params
  | None => params
  end.

(** Build URL parameters from quote options. *)
Definition buildParams (options : QuoteOptions.t) : URLSearchParams.t :=
  let params := URLSearchParams.empty in
  let params := URLSearchParams.set "origin" (QuoteOptions.origin options) params in
  let params :=
    URLSearchParams.set "destination" (QuoteOptions.destination options) params in
  let params := URLSearchParams.set "loadtype" (QuoteOptions.loadtype options) params in
  let params :=
    match explicitWeightUnit (QuoteOptions.weightUnit options) with
    | Some u =>
        URLSearchParams.set "weight"
          (numToString (QuoteOptions.weight options) ++ u) params
    | None =>
        URLSearchParams.set "weight" (numToString (QuoteOptions.weight options)) params
    end in
  let params :=
    setMeasure "width" (QuoteOptions.width options)
      (QuoteOptions.dimensionUnit options) params in
  let params :=
    setMeasure "length" (QuoteOptions.length options)
      (QuoteOptions.dimensionUnit options) params in
  let params :=
    setMeasure "height" (QuoteOptions.height options)
      (QuoteOptions.dimensionUnit options) params in
  let params :=
    setMeasure "volume" (QuoteOptions.volume options)
      (QuoteOptions.volumeUnit options) params in
  let params :=
    match QuoteOptions.quantity options with
    | Some q =>
        if negb (Qle_bool q 1)
        then URLSearchParams.set "quantity" (numToString q) params
        else params
    | None => params
    end in
  let params := setIfTruthy "mode" (QuoteOptions.mode options) params in
  let params :=
    match QuoteOptions.estimate options with
    | Some true => URLSearchParams.set "estimate" "true" params
    | _ => params
    end in
  let params := setIfTruthy "hazCode" (QuoteOptions.hazCode options) params in
  URLSearchParams.set "format" "json" params.

(** *** Response normalizer *)

(** [if (raw.response.errors)]: a string is truthy unless empty, an array
    always. *)
Definition errorsTruthy (e : Raw.Errors) : bool :=
  match e with
  | Raw.Message s => JS.truthy s
  | Raw.Items _ => true
  end.

(** [result.errors && result.errors.length > 0]. *)
Definition hasErrors (result : QuoteResponse) : bool :=
  match errors result with
  | Some es => (0 <? List.length es)%nat
  | None => false
  end.

(** The entry built by the [modesArray.map] callback. *)
Definition flattenMode (m : Raw.ModeData) : FreightRate.t :=
  {| FreightRate.mode := Raw.mode m;
     FreightRate.minPrice :=
       {| amount := Raw.amount (Raw.moneyAmount (Raw.min (Raw.price m)));
          currency := Raw.currency (Raw.moneyAmount (Raw.min (Raw.price m))) |};
     FreightRate.maxPrice :=
       {| amount := Raw.amount (Raw.moneyAmount (Raw.max (Raw.price m)));
          currency := Raw.currency (Raw.moneyAmount (Raw.max (Raw.price m))) |};
     FreightRate.transitTimes :=
       {| TransitTimes.min := Raw.tmin (Raw.transitTimes m);
          TransitTimes.max := Raw.tmax (Raw.transitTimes m);
          TransitTimes.unit := Some (Raw.unit (Raw.transitTimes m)) |} |}.

(** Second half of [transformResponse] ("Transform freight rates"), reached
    when the error check did not return. *)
Definition transformRates (raw : RawApiResponse) (result : QuoteResponse)
  : QuoteResponse :=
  match Raw.estimatedFreightRates (response raw) with
  | Some rates =>
      let result := set_numQuotes result (Raw.numQuotes rates) in
      match Raw.modes rates with
      | None => set_estimatedFreightRates result []
      | Some modeData =>
          if Raw.numQuotes rates =? 0
          then set_estimatedFreightRates result []
          else
            let modesArray :=
              match modeData with
              | Raw.Many ms => ms
              | Raw.One m => [m]
              end in
            set_estimatedFreightRates result (map flattenMode modesArray)
      end
  | None => result
  end.

(** Transform raw API response to normalized format. *)
Definition transformResponse (raw : RawApiResponse) : QuoteResponse :=
  let result := emptyQuoteResponse in
  match Raw.errors (response raw) with
  | Some e =>
      if errorsTruthy e
      then
        let result :=
          match e with
          | Raw.Message s => set_errors result [s]
          | Raw.Items es =>
              if (0 <? List.length es)%nat
              then set_errors result (map Raw.error es)
              else result
          end in
        if hasErrors result then result else transformRates raw result
      else transformRates raw result
  | None => transformRates raw result
  end.

(** *** Requests *)

(** [fetch(url, { method: "GET", headers: { Accept: "application/json" } })]. *)
Definition fetch (url : string) : Eff HttpResponse.t :=
  fun w =>
    let rq :=
      {| req_url := url; req_method := "GET"; req_accept := "application/json" |} in
    match upstream rq with
    | Resolved r => (Return r, sent rq w)
    | Rejected reason => (Throw reason, sent rq w)
    end.

(** [response.json()]. *)
Definition response_json (r : HttpResponse.t) : Eff RawApiResponse :=
  match HttpResponse.json r with
  | Some raw => ret raw
  | None => throw "Unexpected token in JSON"
  end.

Definition rateLimitExceeded (status : RateLimitStatus) : string :=
  "Rate limit exceeded: " ++ JS.show (callsInLastHour status) ++ "/"
  ++ JS.show (limit status) ++ " calls in the last hour. Try again at "
  ++ JS.or_else (option_map toLocaleTimeString (resetsAt status)) "later"
  ++ ".".

(** Make a request to the Freightos API with rate limit checking. *)
Definition request (params : URLSearchParams.t) : Eff QuoteResponse :=
  chk <- checkRateLimit ;;
  let (allowed, status) := chk : bool * RateLimitStatus in
  if negb allowed
  then
    ret {| estimatedFreightRates := None; numQuotes := None;
           errors := Some [rateLimitExceeded status];
           rateLimit := Some status |}
  else
    let url := quoteApiUrl config ++ "?" ++ URLSearchParams.toString encode params in
    response <- fetch url ;;
    recordCall ;;
    if negb (HttpResponse.ok response)
    then
      throw ("Freightos API error (" ++ JS.show (HttpResponse.status response)
             ++ "): " ++ HttpResponse.text response)
    else
      rawData <- response_json response ;;
      let data := transformResponse rawData in
      current <- getRateLimitStatus ;;
      let data := set_rateLimit data current in
      if hasErrors data
      then
        throw ("Freightos API errors: "
               ++ JS.join ", " (match errors data with Some es => es | None => [] end))
      else ret data.

(** *** Quote operations *)

(** Gets detailed freight rate quotes. *)
Definition getQuote (options : QuoteOptions.t) : Eff QuoteResponse :=
  let params := buildParams options in
  request params.

(** [{ ...options, estimate: true }]. *)
Definition withEstimate (o : QuoteOptions.t) : QuoteOptions.t :=
  QuoteOptions.mk (QuoteOptions.origin o) (QuoteOptions.destination o)
    (QuoteOptions.loadtype o) (QuoteOptions.weight o) (QuoteOptions.weightUnit o)
    (QuoteOptions.width o) (QuoteOptions.length o) (QuoteOptions.height o)
    (QuoteOptions.dimensionUnit o) (QuoteOptions.volume o)
    (QuoteOptions.volumeUnit o) (QuoteOptions.quantity o) (QuoteOptions.mode o)
    (Some true) (QuoteOptions.hazCode o).

(** Gets quick rate estimates. *)
Definition getQuoteEstimate (options : QuoteOptions.t) : Eff QuoteResponse :=
  let params := buildParams (withEstimate options) in
  request params.

(** Compares rates across all available shipping modes. *)
Definition compareRates (options : QuoteOptions.t) : Eff QuoteResponse :=
  let params := buildParams options in
  let params := URLSearchParams.delete "mode" params in
  request params.

End Client.

(** ** Observations used in the statements *)

(** The call list the client reads out of a rate-limit file. *)
Definition persisted (f : RateLimitFile) : list Z :=
  match f with
  | FileJson (Some stored) => stored
  | _ => []
  end.

(** The calls of [stored] that are less than one window old at time [now]. *)
Definition validCalls (now : Z) (stored : list Z) : list Z :=
  filter (fun timestamp => timestamp >? now - RATE_LIMIT_WINDOW_MS) stored.

(** An error outcome: messages only, no rate list, no quote count. *)
Definition errorOutcome (messages : list string) : QuoteResponse :=
  {| estimatedFreightRates := None; numQuotes := None;
     errors := Some messages; rateLimit := None |}.

(** The list of plain strings an [errors] field stands for. *)
Definition errorMessages (e : Raw.Errors) : list string :=
  match e with
  | Raw.Message s => if JS.truthy s then [s] else []
  | Raw.Items es => map Raw.error es
  end.

(** The messages of a document; none when it has no [errors] field. *)
Definition errorsOf (raw : RawApiResponse) : list string :=
  match Raw.errors (response raw) with
  | Some e => errorMessages e
  | None => []
  end.

(** A success outcome: rates and the quote count, no error list. *)
Definition successOutcome (rates : list FreightRate.t) (n : Z) : QuoteResponse :=
  {| estimatedFreightRates := Some rates; numQuotes := Some n;
     errors := None; rateLimit := None |}.

(** [modeData] seen as a list, the way [modesArray] is built. *)
Definition modesList (modeData : Raw.Modes) : list Raw.ModeData :=
  match modeData with
  | Raw.Many ms => ms
  | Raw.One m => [m]
  end.

(** The same document with the [errors] field removed. *)
Definition withoutErrors (raw : RawApiResponse) : RawApiResponse :=
  {| response :=
       {| Raw.estimatedFreightRates := Raw.estimatedFreightRates (response raw);
          Raw.errors := None |} |}.

(** The GET request that [request] issues for [params]. *)
Definition requestFor (encode : string -> string) (config : FreightosConfig)
  (params : URLSearchParams.t) : HttpRequest :=
  {| req_url := quoteApiUrl config ++ "?" ++ URLSearchParams.toString encode params;
     req_method := "GET";
     req_accept := "application/json" |}.

(** The two warning variants, told apart by how the message starts. *)
Definition isReachedWarning (message : string) : bool :=
  String.prefix "RATE LIMIT REACHED:" message.

Definition isApproachingWarning (message : string) : bool :=
  String.prefix "Rate limit warning:" message.

(** *** [percentUsed] in IEEE 754 double precision

    [statusOf] evaluates [Math.round((callsInLastHour / RATE_LIMIT) * 100)]
    over exact rationals.  The definitions below evaluate the same expression
    with binary64 division and multiplication, to compare the two. *)
Module Binary64.

Definition prec : Z := 53.
Definition emax : Z := 1024.

Definition ofZ (z : Z) : spec_float :=
  binary_normalize prec emax z 0 false.

(** The rational a finite double denotes. *)
Definition toQ (x : spec_float) : option Q :=
  match x with
  | S754_zero _ => Some 0%Q
  | S754_finite s m e =>
      let magnitude :=
        match e with
        | Z.neg p => (Z.pos m # (2 ^ p))%Q
        | _ => inject_Z (Z.pos m * 2 ^ e)
        end in
      Some (if s then Qopp magnitude else magnitude)
  | S754_infinity _ => None
  | S754_nan => None
  end.

Definition percentUsed (callsInLastHour : Z) : option Z :=
  let ratio := SFdiv prec emax (ofZ callsInLastHour) (ofZ RATE_LIMIT) in
  option_map JS.Math_round (toQ (SFmul prec emax ratio (ofZ 100))).

End Binary64.

(** ** Sample data *)

Module Sample.

Definition config : FreightosConfig :=
  {| quoteApiUrl := "https://ship.freightos.com/api/shippingCalculator";
     webAppUrl := "https://ship.freightos.com";
     shipmentsUrl := "https://ship.freightos.com/shipments" |}.

(** A clock that advances one second per reading, starting at 4000000 ms. *)
Definition clock (k : nat) : Z :=
  4000000 + 1000 * Z.of_nat k.

(** Times are shown as their epoch milliseconds. *)
Definition toLocaleTimeString (t : Z) : string :=
  JS.show t.

(** Integers print in decimal; other values are not needed here. *)
Definition numToString (q : Q) : string :=
  JS.show (Qfloor q).

Definition encode (s : string) : string := s.

(** [n] calls recorded one second apart, the first at 3000001 ms. *)
Definition history (n : nat) : list Z :=
  map (fun k => 3000000 + 1000 * Z.of_nat k + 1) (seq 0 n).

Definition world (stored : list Z) (writable : bool) : World :=
  {| rateLimitFile := FileJson (Some stored); cacheWritable := writable;
     ticks := 0; network := [] |}.

Definition money (a : Q) : Raw.Bound :=
  {| Raw.moneyAmount := {| Raw.amount := a; Raw.currency := "USD" |} |}.

Definition sea : Raw.ModeData :=
  {| Raw.mode := "sea";
     Raw.price := {| Raw.min := money 1200; Raw.max := money 1500 |};
     Raw.transitTimes := {| Raw.unit := "days"; Raw.tmin := 30; Raw.tmax := 40 |} |}.

Definition air : Raw.ModeData :=
  {| Raw.mode := "air";
     Raw.price := {| Raw.min := money 5200; Raw.max := money 6100 |};
     Raw.transitTimes := {| Raw.unit := "days"; Raw.tmin := 3; Raw.tmax := 6 |} |}.

Definition rawRates (modes : option Raw.Modes) (numQuotes : Z) : RawApiResponse :=
  {| response :=
       {| Raw.estimatedFreightRates :=
            Some {| Raw.modes := modes; Raw.numQuotes := numQuotes |};
          Raw.errors := None |} |}.

(** [{"response":{"errors":"bad route"}}]. *)
Definition badRoute : RawApiResponse :=
  {| response :=
       {| Raw.estimatedFreightRates := None;
          Raw.errors := Some (Raw.Message "bad route") |} |}.

(** [{"response":{"estimatedFreightRates":{"numQuotes":0}}}]. *)
Definition noQuotes : RawApiResponse :=
  rawRates None 0.

Definition options : QuoteOptions.t :=
  QuoteOptions.mk "CNNGB" "GBSOU" "pallets" 500 None (Some 120%Q) (Some 100%Q)
    (Some 180%Q) (Some "cm") None None (Some 6%Q) (Some "LCL") None None.

(** An upstream that answers every request with the given response. *)
Definition answering (r : HttpResponse.t) : HttpRequest -> FetchResult :=
  fun _ => Resolved r.

Definition serverError : HttpResponse.t :=
  HttpResponse.mk 500 "Internal Server Error" None.

(** A 200 answer whose body is [body]. *)
Definition okResponse (body : RawApiResponse) : HttpResponse.t :=
  HttpResponse.mk 200 "{}" (Some body).

(** The spec's end-to-end request: a 40HC container, 15000 kg. *)
Definition container : QuoteOptions.t :=
  QuoteOptions.mk "CNNGB" "GBSOU" "container40HC" 15000 None None None None
    None None None None None None None.

(** The status read at the first clock reading from [stored]. *)
Definition statusAt (stored : list Z) : RateLimitStatus :=
  statusOf toLocaleTimeString (validCalls (clock 0) stored).

End Sample.

(** ** The command-line front end ([cli.ts]) *)

(** The objects the two formatting helpers return. *)
Module View.

Record RateLimit := {
  callsInLastHour : Z;
  limit : Z;
  remaining : Z;
  percentUsed : string;
  resetsAt : option string;
  warning : option string;
  status : string
}.

Record Rate := {
  mode : string;
  priceRange : string;
  transitTime : string;
  minPrice : PriceRange;
  maxPrice : PriceRange;
  transitDays : TransitTimes.t
}.

(** The [QuoteResponse] values of this development carry no [origin] or
    [destination] (the client never sets them), so the two fields that
    [formatQuoteResponse] copies from them are not represented. *)
Record Quote := {
  success : bool;
  message : option string;
  rates : option (list Rate);
  rateCount : option Z;
  rateLimit : option RateLimit;
  errors : option (list string)
}.

End View.

Section Cli.

(** [Date.prototype.toISOString], on epoch milliseconds. *)
Variable toISOString : Z -> string.
(** Template interpolation of a number. *)
Variable numToString : Q -> string.

(** Helper to format rate limit status. *)
Definition formatRateLimitStatus (st : RateLimitStatus) : View.RateLimit :=
  {| View.callsInLastHour := callsInLastHour st;
     View.limit := limit st;
     View.remaining := remaining st;
     View.percentUsed := JS.show (percentUsed st) ++ "%";
     View.resetsAt := option_map toISOString (resetsAt st);
     View.warning := warning st;
     View.status :=
       if remaining st >? 20 then "OK"
       else if remaining st >? 0 then "LOW"
       else "EXHAUSTED" |}.

(** The entry built by the [estimatedFreightRates.map] callback. *)
Definition formatRate (rate : FreightRate.t) : View.Rate :=
  {| View.mode := FreightRate.mode rate;
     View.priceRange :=
       currency (FreightRate.minPrice rate) ++ " "
       ++ numToString (amount (FreightRate.minPrice rate)) ++ " - "
       ++ numToString (amount (FreightRate.maxPrice rate));
     View.transitTime :=
       numToString (TransitTimes.min (FreightRate.transitTimes rate)) ++ " - "
       ++ numToString (TransitTimes.max (FreightRate.transitTimes rate))
       ++ " days";
     View.minPrice := FreightRate.minPrice rate;
     View.maxPrice := FreightRate.maxPrice rate;
     View.transitDays := FreightRate.transitTimes rate |}.

(** Helper to format quote response. *)
Definition formatQuoteResponse (response : QuoteResponse) : View.Quote :=
  let formatted :=
    {| View.success := true; View.message := None; View.rates := None;
       View.rateCount := None; View.rateLimit := None; View.errors := None |} in
  let noRates :=
    match numQuotes response with
    | Some n =>
        if n =? 0
        then
          {| View.success := View.success formatted;
             View.message :=
               Some "No rates available for this route/cargo combination";
             View.rates := View.rates formatted;
             View.rateCount := Some 0;
             View.rateLimit := View.rateLimit formatted;
             View.errors := View.errors formatted |}
        else formatted
    | None => formatted
    end in
  let formatted :=
    match estimatedFreightRates response with
    | Some rs =>
        if (0 <? List.length rs)%nat
        then
          {| View.success := View.success formatted;
             View.message := View.message formatted;
             View.rates := Some (map formatRate rs);
             View.rateCount := Some (Z.of_nat (List.length rs));
             View.rateLimit := View.rateLimit formatted;
             View.errors := View.errors formatted |}
        else noRates
    | None => noRates
    end in
  let formatted :=
    match rateLimit response with
    | Some st =>
        {| View.success := View.success formatted;
           View.message := View.message formatted;
           View.rates := View.rates formatted;
           View.rateCount := View.rateCount formatted;
           View.rateLimit := Some (formatRateLimitStatus st);
           View.errors := View.errors formatted |}
    | None => formatted
    end in
  if hasErrors response
  then
    {| View.success := false;
       View.message := View.message formatted;
       View.rates := View.rates formatted;
       View.rateCount := View.rateCount formatted;
       View.rateLimit := View.rateLimit formatted;
       View.errors := errors response |}
  else formatted.

End Cli.

(** ** Further observations *)

(** The text sent for each parameter, [None] when it is not sent. *)
Definition weightText (numToString : Q -> string) (weight : Q)
  (weightUnit : option string) : string :=
  match explicitWeightUnit weightUnit with
  | Some u => numToString weight ++ u
  | None => numToString weight
  end.

Definition measureText (numToString : Q -> string) (value : option Q)
  (unit : option string) : option string :=
  match value with
  | Some v => Some (numToString v ++ JS.or_else unit "")
  | None => None
  end.

Definition quantityText (numToString : Q -> string) (quantity : option Q)
  : option string :=
  match quantity with
  | Some q => if Qle_bool q 1 then None else Some (numToString q)
  | None => None
  end.

Definition nonEmptyText (value : option string) : option string :=
  match value with
  | Some v => if JS.truthy v then Some v else None
  | None => None
  end.

Definition estimateText (estimate : option bool) : option string :=
  match estimate with
  | Some true => Some "true"
  | _ => None
  end.

(** The pair sent for a parameter with text [value], if any. *)
Definition optionalParam (name : string) (value : option string)
  : URLSearchParams.t :=
  match value with
  | Some v => [(name, v)]
  | None => []
  end.

(** [params.set(name, value)] when there is a text to send. *)
Definition setOptional (name : string) (value : option string)
  (params : URLSearchParams.t) : URLSearchParams.t :=
  match value with
  | Some v => URLSearchParams.set name v params
  | None => params
  end.

(** The parameters [buildParams] sets before [estimate] and after it, and
    before [mode] and after it, each in order. *)
Definition paramsBeforeMode (numToString : Q -> string) (options : QuoteOptions.t)
  : URLSearchParams.t :=
  ([("origin", QuoteOptions.origin options);
    ("destination", QuoteOptions.destination options);
    ("loadtype", QuoteOptions.loadtype options);
    ("weight",
     weightText numToString (QuoteOptions.weight options)
       (QuoteOptions.weightUnit options))]
   ++ optionalParam "width"
        (measureText numToString (QuoteOptions.width options)
           (QuoteOptions.dimensionUnit options))
   ++ optionalParam "length"
        (measureText numToString (QuoteOptions.length options)
           (QuoteOptions.dimensionUnit options))
   ++ optionalParam "height"
        (measureText numToString (QuoteOptions.height options)
           (QuoteOptions.dimensionUnit options))
   ++ optionalParam "volume"
        (measureText numToString (QuoteOptions.volume options)
           (QuoteOptions.volumeUnit options))
   ++ optionalParam "quantity"
        (quantityText numToString (QuoteOptions.quantity options)))%list.

Definition paramsAfterEstimate (options : QuoteOptions.t) : URLSearchParams.t :=
  (optionalParam "hazCode" (nonEmptyText (QuoteOptions.hazCode options))
   ++ [("format", "json")])%list.

(** The parameters of [options] in the order [buildParams] sets them, one
    pair per parameter that is sent. *)
Definition paramsInOrder (numToString : Q -> string) (options : QuoteOptions.t)
  : URLSearchParams.t :=
  (paramsBeforeMode numToString options
   ++ optionalParam "mode" (nonEmptyText (QuoteOptions.mode options))
   ++ optionalParam "estimate" (estimateText (QuoteOptions.estimate options))
   ++ paramsAfterEstimate options)%list.

(** No name occurs twice in [names]. *)
Fixpoint distinct (names : list string) : bool :=
  match names with
  | [] => true
  | name :: rest => negb (existsb (String.eqb name) rest) && distinct rest
  end.

(** [options] with the [mode] field left out. *)
Definition withoutMode (o : QuoteOptions.t) : QuoteOptions.t :=
  QuoteOptions.mk (QuoteOptions.origin o) (QuoteOptions.destination o)
    (QuoteOptions.loadtype o) (QuoteOptions.weight o) (QuoteOptions.weightUnit o)
    (QuoteOptions.width o) (QuoteOptions.length o) (QuoteOptions.height o)
    (QuoteOptions.dimensionUnit o) (QuoteOptions.volume o)
    (QuoteOptions.volumeUnit o) (QuoteOptions.quantity o) None
    (QuoteOptions.estimate o) (QuoteOptions.hazCode o).

(** The number of calls of [w]'s rate-limit file that are inside the window
    at the next clock reading. *)
Definition callsInWindow (clock : nat -> Z) (w : World) : Z :=
  Z.of_nat (List.length
              (validCalls (clock (ticks w)) (persisted (rateLimitFile w)))).

(** ** Further sample data *)

Module Scenario.

(** An upstream that cannot be reached. *)
Definition offline : HttpRequest -> FetchResult :=
  fun _ => Rejected "fetch failed".

(** Dates are shown as their epoch milliseconds. *)
Definition toISOString (t : Z) : string :=
  JS.show t.

End Scenario.

(** * Properties *)

(** ** Strings *)

Lemma append_assoc (a b c : string) :
  ((a ++ b) ++ c = a ++ b ++ c)%string.
Proof.
  induction a as [|x a IH]; simpl; [reflexivity | now rewrite IH].
Qed.

Lemma or_else_includes (s d : string) :
  JS.includes (JS.or_else (Some s) d) s.
Proof.
  unfold JS.or_else, JS.truthy.
  destruct (String.eqb_spec s "") as [->|_]; simpl.
  - exists "", d. reflexivity.
  - exists "", "". simpl. clear. induction s; simpl; congruence.
Qed.

(** ** The rate limiter *)

Section RateLimiter.

Variable clock : nat -> Z.
Variable toLocaleTimeString : Z -> string.

Lemma loadRateLimitData_run (w : World) :
  loadRateLimitData w = (Return {| calls := persisted (rateLimitFile w) |}, w).
Proof.
  unfold loadRateLimitData, persisted.
  destruct (rateLimitFile w) as [| |[stored|]]; reflexivity.
Qed.

Lemma cleanOldCalls_run (stored : list Z) (w : World) :
  cleanOldCalls clock stored w
  = (Return (validCalls (clock (ticks w)) stored), tick w).
Proof. reflexivity. Qed.

Lemma getRateLimitStatus_run (w : World) :
  getRateLimitStatus clock toLocaleTimeString w
  = (Return (statusOf toLocaleTimeString
               (validCalls (clock (ticks w)) (persisted (rateLimitFile w)))),
     tick w).
Proof.
  unfold getRateLimitStatus, bind.
  rewrite loadRateLimitData_run. cbv beta iota. cbn [calls].
  rewrite cleanOldCalls_run. reflexivity.
Qed.

Lemma recordCall_run (w : World) :
  recordCall clock w
  = (Return tt,
     if cacheWritable w
     then written
            (FileJson
               (Some (validCalls (clock (ticks w)) (persisted (rateLimitFile w))
                      ++ [clock (S (ticks w))])%list))
            (tick (tick w))
     else tick (tick w)).
Proof.
  unfold recordCall, bind.
  rewrite loadRateLimitData_run. cbv beta iota. cbn [calls].
  rewrite cleanOldCalls_run.
  unfold Date_now, saveRateLimitData. cbn.
  destruct (cacheWritable w); reflexivity.
Qed.

(** *** Pruning *)

Lemma validCalls_count_occ (now : Z) (stored : list Z) (t : Z) :
  count_occ Z.eq_dec (validCalls now stored) t
  = if t >? now - RATE_LIMIT_WINDOW_MS
    then count_occ Z.eq_dec stored t
    else 0%nat.
Proof.
  unfold validCalls.
  induction stored as [|x stored IH]; simpl.
  - now destruct (t >? _).
  - destruct (x >? now - RATE_LIMIT_WINDOW_MS) eqn:Hx; simpl;
      destruct (Z.eq_dec x t) as [->|ne]; rewrite IH; try reflexivity.
    + now rewrite Hx.
    + now rewrite Hx.
Qed.

Lemma validCalls_In (now : Z) (stored : list Z) (t : Z) :
  In t (validCalls now stored)
  <-> In t stored /\ now - t < RATE_LIMIT_WINDOW_MS.
Proof.
  unfold validCalls. rewrite filter_In.
  split; intros [Hin Ht]; split; try assumption.
  - apply Z.gtb_lt in Ht. lia.
  - apply Z.gtb_lt. lia.
Qed.

Lemma validCalls_Permutation (now : Z) (stored stored' : list Z) :
  Permutation stored stored' ->
  Permutation (validCalls now stored) (validCalls now stored').
Proof.
  unfold validCalls.
  induction 1 as [|x l l' _ IH|x y l|l l' l'' _ IH1 _ IH2]; simpl.
  - constructor.
  - destruct (x >? _); [now constructor | exact IH].
  - destruct (x >? _), (y >? _); try apply Permutation_refl. apply perm_swap.
  - now transitivity (filter (fun timestamp => timestamp >? now - RATE_LIMIT_WINDOW_MS) l').
Qed.

(** C3.  Read at time [now], [cleanOldCalls] returns a list in which every
    timestamp less than one window (3 600 000 ms) old occurs exactly as often
    as in the input and no other timestamp occurs at all: the entries that
    are a full window old or older are the ones removed, all others are
    retained.  Reordering the input only reorders the output: the retained
    entries form the same multiset for any permutation of the input. *)
Theorem cleanOldCalls_prunes_exactly (stored : list Z) (w : World) :
  let now := clock (ticks w) in
  exists kept,
    fst (cleanOldCalls clock stored w) = Return kept
    /\ (forall t, count_occ Z.eq_dec kept t
                  = if now - t <? RATE_LIMIT_WINDOW_MS
                    then count_occ Z.eq_dec stored t
                    else 0%nat)
    /\ (forall t, In t kept <-> In t stored /\ now - t < 60 * 60 * 1000)
    /\ (forall stored',
          Permutation stored stored' ->
          exists kept',
            fst (cleanOldCalls clock stored' w) = Return kept'
            /\ Permutation kept kept').
Proof.
  intros now. exists (validCalls now stored).
  rewrite cleanOldCalls_run. cbn [fst].
  split; [reflexivity|]. split; [|split].
  - intros t. rewrite validCalls_count_occ.
    destruct (Z.gtb_spec t (now - RATE_LIMIT_WINDOW_MS)),
             (Z.ltb_spec (now - t) RATE_LIMIT_WINDOW_MS); (reflexivity || lia).
  - intros t. apply validCalls_In.
  - intros stored' HP. exists (validCalls now stored').
    rewrite cleanOldCalls_run. split; [reflexivity|].
    now apply validCalls_Permutation.
Qed.

(** A call made exactly one window ago is already dropped. *)
Lemma cleanOldCalls_boundary (w : World) :
  fst (cleanOldCalls clock
         [clock (ticks w) - RATE_LIMIT_WINDOW_MS;
          clock (ticks w) - RATE_LIMIT_WINDOW_MS + 1] w)
  = Return [clock (ticks w) - RATE_LIMIT_WINDOW_MS + 1].
Proof.
  rewrite cleanOldCalls_run. cbn [fst]. unfold validCalls. cbn [filter].
  destruct (Z.gtb_spec (clock (ticks w) - RATE_LIMIT_WINDOW_MS)
                       (clock (ticks w) - RATE_LIMIT_WINDOW_MS)); [lia|].
  destruct (Z.gtb_spec (clock (ticks w) - RATE_LIMIT_WINDOW_MS + 1)
                       (clock (ticks w) - RATE_LIMIT_WINDOW_MS)); [reflexivity|lia].
Qed.

(** *** Status *)

Lemma Math_round_percent (c : Z) :
  JS.Math_round ((inject_Z c / inject_Z RATE_LIMIT) * 100)%Q = c.
Proof.
  unfold JS.Math_round.
  assert (E : ((inject_Z c / inject_Z RATE_LIMIT) * 100 + (1 # 2)
               == inject_Z c + (1 # 2))%Q).
  { apply Qplus_comp; [|reflexivity]. unfold RATE_LIMIT. field. }
  rewrite (Qfloor_comp _ _ E).
  unfold Qfloor, Qplus, inject_Z. cbn [Qnum Qden].
  change (Z.pos (1 * 2)) with 2.
  symmetry. apply Z.div_unique with (r := 1); lia.
Qed.

Lemma statusOf_callsInLastHour (recentCalls : list Z) :
  callsInLastHour (statusOf toLocaleTimeString recentCalls)
  = Z.of_nat (List.length recentCalls).
Proof. reflexivity. Qed.

Lemma statusOf_remaining (recentCalls : list Z) :
  remaining (statusOf toLocaleTimeString recentCalls)
  = Z.max 0 (RATE_LIMIT - Z.of_nat (List.length recentCalls)).
Proof. reflexivity. Qed.

Lemma statusOf_percentUsed (recentCalls : list Z) :
  percentUsed (statusOf toLocaleTimeString recentCalls)
  = Z.of_nat (List.length recentCalls).
Proof. unfold statusOf. cbn [percentUsed]. apply Math_round_percent. Qed.

Lemma statusOf_warning (recentCalls : list Z) :
  let st := statusOf toLocaleTimeString recentCalls in
  let c := Z.of_nat (List.length recentCalls) in
  warning st
  = if c >=? 100
    then Some (reachedWarning toLocaleTimeString c (resetsAt st))
    else if c >=? 80
    then Some (approachingWarning c (percentUsed st) (remaining st))
    else None.
Proof. reflexivity. Qed.

Lemma reached_is_reached (c : Z) (r : option Z) :
  isReachedWarning (reachedWarning toLocaleTimeString c r) = true
  /\ isApproachingWarning (reachedWarning toLocaleTimeString c r) = false.
Proof. split; reflexivity. Qed.

Lemma approaching_is_approaching (c p r : Z) :
  isApproachingWarning (approachingWarning c p r) = true
  /\ isReachedWarning (approachingWarning c p r) = false.
Proof. split; reflexivity. Qed.

(** C8.  The status computed from any rate-limit file at any time counts the
    calls inside the window; its warning is non-null iff that count is at
    least 80, carries the "limit reached" message iff the count is at least
    100, and carries the "approaching limit" message iff the count is from 80
    to 99. *)
Theorem warning_thresholds (w : World) :
  exists st,
    fst (getRateLimitStatus clock toLocaleTimeString w) = Return st
    /\ callsInLastHour st
       = Z.of_nat (List.length
                     (validCalls (clock (ticks w)) (persisted (rateLimitFile w))))
    /\ (warning st <> None <-> 80 <= callsInLastHour st)
    /\ ((exists m, warning st = Some m /\ isReachedWarning m = true)
        <-> 100 <= callsInLastHour st)
    /\ ((exists m, warning st = Some m /\ isApproachingWarning m = true)
        <-> 80 <= callsInLastHour st < 100).
Proof.
  rewrite getRateLimitStatus_run. cbn [fst].
  set (recent := validCalls _ _).
  exists (statusOf toLocaleTimeString recent).
  split; [reflexivity|]. split; [reflexivity|].
  rewrite statusOf_warning, statusOf_callsInLastHour. cbv zeta.
  set (c := Z.of_nat (List.length recent)).
  destruct (Z.geb_spec c 100) as [H100|H100].
  - destruct (reached_is_reached c (resetsAt (statusOf toLocaleTimeString recent)))
      as [Hr Ha].
    set (msg := reachedWarning _ _ _) in *. clearbody msg.
    split; [|split].
    + split; [lia | discriminate].
    + split; [lia | intros _; eauto].
    + split; [|lia]. intros (m & [= <-] & Hm). congruence.
  - destruct (Z.geb_spec c 80) as [H80|H80].
    + destruct (approaching_is_approaching c
                  (percentUsed (statusOf toLocaleTimeString recent))
                  (remaining (statusOf toLocaleTimeString recent))) as [Ha Hr].
      set (msg := approachingWarning _ _ _) in *. clearbody msg.
      split; [|split].
      * split; [lia | discriminate].
      * split; [|lia]. intros (m & [= <-] & Hm). congruence.
      * split; [lia | intros _; eauto].
    + split; [|split].
      * split; [congruence | lia].
      * split; [|lia]. intros (m & [=] & _).
      * split; [|lia]. intros (m & [=] & _).
Qed.

(** C10.  The status computed from any rate-limit file at any time has
    [percentUsed] equal to the count of calls inside the window,
    [Math.round((count / 100) * 100) = count], with no cap: once the count
    exceeds 100, [percentUsed] exceeds 100 while [remaining] stays at 0. *)
Theorem percentUsed_is_count_uncapped (w : World) :
  exists st,
    fst (getRateLimitStatus clock toLocaleTimeString w) = Return st
    /\ callsInLastHour st
       = Z.of_nat (List.length
                     (validCalls (clock (ticks w)) (persisted (rateLimitFile w))))
    /\ percentUsed st = callsInLastHour st
    /\ remaining st = Z.max 0 (100 - callsInLastHour st)
    /\ (100 < callsInLastHour st -> 100 < percentUsed st /\ remaining st = 0).
Proof.
  rewrite getRateLimitStatus_run. cbn [fst].
  set (recent := validCalls _ _).
  exists (statusOf toLocaleTimeString recent).
  rewrite statusOf_percentUsed, statusOf_callsInLastHour, statusOf_remaining.
  unfold RATE_LIMIT. repeat split; lia.
Qed.

End RateLimiter.

(** ** The response normalizer *)

Lemma truthy_false_iff (s : string) :
  JS.truthy s = false <-> s = "".
Proof.
  unfold JS.truthy. destruct (String.eqb_spec s ""); simpl; split; congruence.
Qed.

Lemma errorMessages_empty_iff (e : Raw.Errors) :
  errorMessages e = [] <-> e = Raw.Message "" \/ e = Raw.Items [].
Proof.
  destruct e as [s|es]; simpl.
  - destruct (JS.truthy s) eqn:T.
    + split; [discriminate|]. intros [[= ->]|[=]]. discriminate.
    + apply truthy_false_iff in T. subst. split; auto.
  - destruct es; simpl; split; auto; try discriminate.
    intros [[=]|[=]].
Qed.

(** The error check of [transformResponse] returns exactly when the
    [errors] field stands for at least one message. *)
Lemma transformResponse_errors (raw : RawApiResponse) :
  transformResponse raw
  = match errorsOf raw with
    | [] => transformRates raw emptyQuoteResponse
    | messages => errorOutcome messages
    end.
Proof.
  unfold transformResponse, errorsOf.
  destruct (Raw.errors (response raw)) as [[s|es]|]; simpl; try reflexivity.
  - destruct (JS.truthy s); reflexivity.
  - destruct es; reflexivity.
Qed.

(** After the error check, [hasErrors] tells whether the document yields a
    message, and the error list is then exactly the messages. *)
Lemma transformResponse_hasErrors_of (raw : RawApiResponse) :
  hasErrors (transformResponse raw)
  = match errorsOf raw with [] => false | _ => true end
  /\ (errorsOf raw <> [] -> errors (transformResponse raw) = Some (errorsOf raw)).
Proof.
  rewrite transformResponse_errors.
  destruct (errorsOf raw) as [|m ms].
  - split; [|intros H; now elim H].
    unfold hasErrors, transformRates.
    destruct (Raw.estimatedFreightRates (response raw)) as [rates|]; [|reflexivity].
    destruct (Raw.modes rates); [|reflexivity].
    destruct (Raw.numQuotes rates =? 0); reflexivity.
  - split; reflexivity.
Qed.

(** C4.  When the [errors] field is present and stands for at least one
    message, whether it is a single string or an array of objects holding an
    [error] string, [transformResponse] returns those messages as plain
    strings and nothing else: no rate list and no quote count, whatever else
    the document holds.  The body [{"response":{"errors":"bad route"}}] gives
    the one message "bad route". *)
Theorem errors_give_error_outcome (raw : RawApiResponse) (e : Raw.Errors) :
  Raw.errors (response raw) = Some e ->
  errorMessages e <> [] ->
  transformResponse raw = errorOutcome (errorMessages e)
  /\ match e with
     | Raw.Message s => transformResponse raw = errorOutcome [s]
     | Raw.Items es => transformResponse raw = errorOutcome (map Raw.error es)
     end
  /\ estimatedFreightRates (transformResponse raw) = None
  /\ transformResponse Sample.badRoute = errorOutcome ["bad route"].
Proof.
  intros He Hne.
  assert (Hout : transformResponse raw = errorOutcome (errorMessages e)).
  { rewrite transformResponse_errors. unfold errorsOf. rewrite He.
    destruct (errorMessages e); [contradiction | reflexivity]. }
  split; [exact Hout|]. split; [|split].
  - destruct e as [s|es]; rewrite Hout; simpl in *; [|reflexivity].
    destruct (JS.truthy s); [reflexivity | contradiction].
  - now rewrite Hout.
  - reflexivity.
Qed.

(** C9.  When the [errors] field is present but is the empty string or an
    empty array, [transformResponse] reports no error: the result has no
    error list and is what the document without its [errors] field
    normalizes to, that is, the rates are parsed as on the success path. *)
Theorem empty_errors_are_ignored (raw : RawApiResponse) (e : Raw.Errors) :
  Raw.errors (response raw) = Some e ->
  e = Raw.Message "" \/ e = Raw.Items [] ->
  errorMessages e = []
  /\ errors (transformResponse raw) = None
  /\ transformResponse raw = transformRates raw emptyQuoteResponse
  /\ transformResponse raw = transformResponse (withoutErrors raw).
Proof.
  intros He Hempty.
  assert (Hm : errorMessages e = []) by now apply errorMessages_empty_iff.
  assert (Hr : transformResponse raw = transformRates raw emptyQuoteResponse).
  { rewrite transformResponse_errors. unfold errorsOf. now rewrite He, Hm. }
  split; [exact Hm|]. split; [|split].
  - rewrite Hr. unfold transformRates.
    destruct (Raw.estimatedFreightRates (response raw)) as [rates|]; [|reflexivity].
    destruct (Raw.modes rates); [|reflexivity].
    destruct (Raw.numQuotes rates =? 0); reflexivity.
  - exact Hr.
  - rewrite Hr. reflexivity.
Qed.

(** C5 (amended).  When a document yields no error message and holds
    [estimatedFreightRates] whose [numQuotes] is 0 or whose [mode] field is
    absent or an empty array, [transformResponse] returns a success outcome:
    no error list, an empty rate list, and [numQuotes] as the document gives
    it, hence 0 when the document's [numQuotes] is 0.  The body
    [{"response":{"estimatedFreightRates":{"numQuotes":0}}}] gives an empty
    rate list and [numQuotes] 0. *)
Theorem no_rates_is_success (raw : RawApiResponse)
  (rates : Raw.EstimatedFreightRates) :
  errorsOf raw = [] ->
  Raw.estimatedFreightRates (response raw) = Some rates ->
  Raw.numQuotes rates = 0 \/ Raw.modes rates = None
  \/ Raw.modes rates = Some (Raw.Many []) ->
  transformResponse raw = successOutcome [] (Raw.numQuotes rates)
  /\ (Raw.numQuotes rates = 0 -> transformResponse raw = successOutcome [] 0)
  /\ transformResponse Sample.noQuotes = successOutcome [] 0.
Proof.
  intros Hnone Hrates Hcase.
  assert (Hout : transformResponse raw = successOutcome [] (Raw.numQuotes rates)).
  { rewrite transformResponse_errors, Hnone. unfold transformRates.
    rewrite Hrates.
    destruct Hcase as [H0|[Habs|Hemp]].
    - rewrite H0. destruct (Raw.modes rates); reflexivity.
    - rewrite Habs. reflexivity.
    - rewrite Hemp. destruct (Raw.numQuotes rates =? 0); reflexivity. }
  split; [exact Hout|]. split; [|reflexivity].
  intros H0. now rewrite Hout, H0.
Qed.

(** C6.  Past the error check and the no-quotes guard, that is, when the
    document yields no error message and its [numQuotes] is not 0, a [mode]
    field holding a single rate object gives a rate list of length 1 and one
    holding an array of N rate objects gives a rate list of length N; in
    both cases every entry is [flattenMode] of the corresponding object,
    which copies the mode name, [price.min.moneyAmount.{amount,currency}]
    and [price.max.moneyAmount.{amount,currency}] into flat min and max
    prices, and the transit time min, max and unit into flat transit
    times. *)
Theorem modes_flatten_uniformly (raw : RawApiResponse)
  (rates : Raw.EstimatedFreightRates) (modeData : Raw.Modes) :
  errorsOf raw = [] ->
  Raw.estimatedFreightRates (response raw) = Some rates ->
  Raw.numQuotes rates <> 0 ->
  Raw.modes rates = Some modeData ->
  transformResponse raw
  = successOutcome (map flattenMode (modesList modeData)) (Raw.numQuotes rates)
  /\ (forall m, modeData = Raw.One m ->
        estimatedFreightRates (transformResponse raw) = Some [flattenMode m])
  /\ (forall ms, modeData = Raw.Many ms ->
        exists entries,
          estimatedFreightRates (transformResponse raw) = Some entries
          /\ List.length entries = List.length ms
          /\ entries = map flattenMode ms)
  /\ (forall m,
        FreightRate.mode (flattenMode m) = Raw.mode m
        /\ FreightRate.minPrice (flattenMode m)
           = {| amount := Raw.amount (Raw.moneyAmount (Raw.min (Raw.price m)));
                currency := Raw.currency (Raw.moneyAmount (Raw.min (Raw.price m))) |}
        /\ FreightRate.maxPrice (flattenMode m)
           = {| amount := Raw.amount (Raw.moneyAmount (Raw.max (Raw.price m)));
                currency := Raw.currency (Raw.moneyAmount (Raw.max (Raw.price m))) |}
        /\ FreightRate.transitTimes (flattenMode m)
           = {| TransitTimes.min := Raw.tmin (Raw.transitTimes m);
                TransitTimes.max := Raw.tmax (Raw.transitTimes m);
                TransitTimes.unit := Some (Raw.unit (Raw.transitTimes m)) |}).
Proof.
  intros Hnone Hrates Hn Hmodes.
  assert (Hout : transformResponse raw
                 = successOutcome (map flattenMode (modesList modeData))
                     (Raw.numQuotes rates)).
  { rewrite transformResponse_errors, Hnone. unfold transformRates.
    rewrite Hrates, Hmodes.
    destruct (Z.eqb_spec (Raw.numQuotes rates) 0); [contradiction|].
    destruct modeData; reflexivity. }
  split; [exact Hout|]. split; [|split].
  - intros m ->. now rewrite Hout.
  - intros ms ->. exists (map flattenMode ms). rewrite Hout.
    split; [reflexivity|]. split; [apply length_map | reflexivity].
  - intros m. repeat split.
Qed.

(** ** The request builder *)

Section Builder.

Variable numToString : Q -> string.

Lemma get_delete_other (k k' : string) (ps : URLSearchParams.t) :
  k' <> k ->
  URLSearchParams.get k (URLSearchParams.delete k' ps) = URLSearchParams.get k ps.
Proof.
  intros ne. unfold URLSearchParams.delete.
  induction ps as [|[k1 v1] ps IH]; simpl; [reflexivity|].
  destruct (String.eqb_spec k1 k') as [->|ne1]; simpl.
  - destruct (String.eqb_spec k' k); [contradiction | exact IH].
  - destruct (String.eqb_spec k1 k); [reflexivity | exact IH].
Qed.

Lemma get_set (k k' v : string) (ps : URLSearchParams.t) :
  URLSearchParams.get k (URLSearchParams.set k' v ps)
  = if (k' =? k)%string then Some v else URLSearchParams.get k ps.
Proof.
  induction ps as [|[k1 v1] ps IH]; simpl.
  - destruct (k' =? k)%string; reflexivity.
  - destruct (String.eqb_spec k1 k') as [->|ne1]; simpl.
    + destruct (String.eqb_spec k' k) as [e|ne]; [reflexivity|].
      now apply get_delete_other.
    + destruct (String.eqb_spec k1 k) as [->|ne].
      * destruct (String.eqb_spec k' k); [congruence | reflexivity].
      * exact IH.
Qed.

Lemma get_setMeasure (k name : string) (value : option Q) (unit : option string)
  (ps : URLSearchParams.t) :
  URLSearchParams.get k (setMeasure numToString name value unit ps)
  = match value with
    | Some v =>
        if (name =? k)%string
        then Some (numToString v ++ JS.or_else unit "")
        else URLSearchParams.get k ps
    | None => URLSearchParams.get k ps
    end.
Proof.
  unfold setMeasure. destruct value; [apply get_set | reflexivity].
Qed.

Lemma get_setIfTruthy_other (k name : string) (value : option string)
  (ps : URLSearchParams.t) :
  (name =? k)%string = false ->
  URLSearchParams.get k (setIfTruthy name value ps) = URLSearchParams.get k ps.
Proof.
  intros ne. unfold setIfTruthy.
  destruct value as [v|]; [|reflexivity].
  destruct (JS.truthy v); [|reflexivity].
  now rewrite get_set, ne.
Qed.

(** What [buildParams] leaves under a name that only one step may set. *)
Lemma buildParams_get (o : QuoteOptions.t) (k : string) :
  In k ["weight"; "width"; "length"; "height"; "volume"] ->
  URLSearchParams.get k (buildParams numToString o)
  = URLSearchParams.get k
      (setMeasure numToString "volume" (QuoteOptions.volume o)
         (QuoteOptions.volumeUnit o)
      (setMeasure numToString "height" (QuoteOptions.height o)
         (QuoteOptions.dimensionUnit o)
      (setMeasure numToString "length" (QuoteOptions.length o)
         (QuoteOptions.dimensionUnit o)
      (setMeasure numToString "width" (QuoteOptions.width o)
         (QuoteOptions.dimensionUnit o)
      (URLSearchParams.set "weight"
         (match explicitWeightUnit (QuoteOptions.weightUnit o) with
          | Some u => numToString (QuoteOptions.weight o) ++ u
          | None => numToString (QuoteOptions.weight o)
          end) [])))))%string.
Proof.
  intros Hk. unfold buildParams.
  assert (Hq : forall name, In name ["quantity"; "mode"; "estimate"; "hazCode";
                                     "format"; "origin"; "destination"; "loadtype"]
                            -> (name =? k)%string = false).
  { intros name Hn. apply String.eqb_neq. intros ->.
    simpl in Hk, Hn.
    repeat (destruct Hk as [Hk|Hk]; [subst k;
      repeat (destruct Hn as [Hn|Hn]; [discriminate|]); contradiction |]).
    contradiction. }
  rewrite get_set, (Hq "format") by (simpl; tauto).
  rewrite get_setIfTruthy_other by (apply Hq; simpl; tauto).
  assert (He : forall ps,
             URLSearchParams.get k
               (match QuoteOptions.estimate o with
                | Some true => URLSearchParams.set "estimate" "true" ps
                | _ => ps
                end) = URLSearchParams.get k ps).
  { intros ps. destruct (QuoteOptions.estimate o) as [[|]|]; try reflexivity.
    rewrite get_set, (Hq "estimate") by (simpl; tauto). reflexivity. }
  rewrite He.
  rewrite get_setIfTruthy_other by (apply Hq; simpl; tauto).
  assert (Hn : forall ps,
             URLSearchParams.get k
               (match QuoteOptions.quantity o with
                | Some q =>
                    if negb (Qle_bool q 1)
                    then URLSearchParams.set "quantity" (numToString q) ps
                    else ps
                | None => ps
                end) = URLSearchParams.get k ps).
  { intros ps. destruct (QuoteOptions.quantity o) as [q|]; [|reflexivity].
    destruct (negb (Qle_bool q 1)); [|reflexivity].
    rewrite get_set, (Hq "quantity") by (simpl; tauto). reflexivity. }
  rewrite Hn.
  rewrite !get_setMeasure.
  assert (Hw : forall v ps,
             URLSearchParams.get k
               (URLSearchParams.set "weight" v
                  (URLSearchParams.set "loadtype" (QuoteOptions.loadtype o)
                     (URLSearchParams.set "destination" (QuoteOptions.destination o)
                        (URLSearchParams.set "origin" (QuoteOptions.origin o) ps))))
             = URLSearchParams.get k (URLSearchParams.set "weight" v ps)).
  { intros v ps. rewrite !get_set.
    rewrite (Hq "loadtype"), (Hq "destination"), (Hq "origin") by (simpl; tauto).
    reflexivity. }
  destruct (explicitWeightUnit (QuoteOptions.weightUnit o)); rewrite Hw; reflexivity.
Qed.

(** C7.  [buildParams] sets [weight] to the bare number when the weight unit
    is absent, empty or "kg", and otherwise to the number immediately
    followed by the unit.  Each of [width], [length], [height] (with the
    dimension unit) and [volume] (with the volume unit), when provided, is
    set to the number immediately followed by its unit, with no separator,
    and to the bare number when that unit is absent.  So [width] 120 with
    dimension unit "cm" gives [width=120cm]. *)
Theorem buildParams_unit_suffixes (o : QuoteOptions.t) :
  let get k := URLSearchParams.get k (buildParams numToString o) in
  let number := numToString in
  get "weight"
  = Some (match QuoteOptions.weightUnit o with
          | None => number (QuoteOptions.weight o)
          | Some u =>
              if (u =? "kg")%string || (u =? "")%string
              then number (QuoteOptions.weight o)
              else number (QuoteOptions.weight o) ++ u
          end)
  /\ (forall v, QuoteOptions.width o = Some v ->
        get "width" = Some (number v ++ JS.or_else (QuoteOptions.dimensionUnit o) ""))
  /\ (forall v, QuoteOptions.length o = Some v ->
        get "length" = Some (number v ++ JS.or_else (QuoteOptions.dimensionUnit o) ""))
  /\ (forall v, QuoteOptions.height o = Some v ->
        get "height" = Some (number v ++ JS.or_else (QuoteOptions.dimensionUnit o) ""))
  /\ (forall v, QuoteOptions.volume o = Some v ->
        get "volume" = Some (number v ++ JS.or_else (QuoteOptions.volumeUnit o) ""))
  /\ (QuoteOptions.width o = Some 120%Q ->
      QuoteOptions.dimensionUnit o = Some "cm" ->
      number 120%Q = "120" ->
      get "width" = Some "120cm").
Proof.
  intros get number. subst get number. cbv beta.
  rewrite !buildParams_get by (simpl; tauto).
  rewrite !get_setMeasure, get_set. cbn [String.eqb Ascii.eqb Bool.eqb].
  split; [|split; [|split; [|split; [|split]]]].
  - destruct (QuoteOptions.volume o), (QuoteOptions.height o),
      (QuoteOptions.length o), (QuoteOptions.width o);
    unfold explicitWeightUnit, JS.truthy;
    destruct (QuoteOptions.weightUnit o) as [u|]; try reflexivity;
    destruct (u =? "")%string, (u =? "kg")%string; reflexivity.
  - intros v ->. destruct (QuoteOptions.volume o), (QuoteOptions.height o),
      (QuoteOptions.length o); reflexivity.
  - intros v ->. destruct (QuoteOptions.volume o), (QuoteOptions.height o);
      reflexivity.
  - intros v ->. destruct (QuoteOptions.volume o); reflexivity.
  - intros v ->. reflexivity.
  - intros -> -> E. destruct (QuoteOptions.volume o), (QuoteOptions.height o),
      (QuoteOptions.length o); cbn; rewrite E; reflexivity.
Qed.

End Builder.

(** ** The client facade *)

Lemma Math_min_spec (x : Z) (rest : list Z) :
  In (JS.Math_min x rest) (x :: rest)
  /\ forall t, In t (x :: rest) -> JS.Math_min x rest <= t.
Proof.
  unfold JS.Math_min. revert x.
  induction rest as [|y rest IH]; intros x; simpl.
  - split; [now left|]. intros t [<-|[]]. lia.
  - destruct (IH (Z.min x y)) as [Hin Hle]. split.
    + destruct Hin as [E|Hin]; [|now right; right].
      rewrite <- E. destruct (Z.min_spec x y) as [[_ ->]|[_ ->]]; auto.
    + intros t Ht.
      assert (Hm : fold_left Z.min rest (Z.min x y) <= Z.min x y)
        by (apply Hle; now left).
      destruct Ht as [<-|[<-|Ht]]; [lia | lia |].
      apply Hle. now right.
Qed.

Section Facade.

Variable clock : nat -> Z.
Variable toLocaleTimeString : Z -> string.
Variable numToString : Q -> string.
Variable encode : string -> string.
Variable upstream : HttpRequest -> FetchResult.
Variable config : FreightosConfig.

Lemma checkRateLimit_run (w : World) :
  checkRateLimit clock toLocaleTimeString w
  = (let st := statusOf toLocaleTimeString
                 (validCalls (clock (ticks w)) (persisted (rateLimitFile w))) in
     (Return (remaining st >? 0, st), tick w)).
Proof.
  unfold checkRateLimit, bind. rewrite getRateLimitStatus_run. reflexivity.
Qed.

(** With no quota left, [request] returns at once. *)
Lemma request_denied (params : URLSearchParams.t) (w : World)
  (st : RateLimitStatus) :
  fst (getRateLimitStatus clock toLocaleTimeString w) = Return st ->
  remaining st = 0 ->
  request clock toLocaleTimeString encode upstream config params w
  = (Return {| estimatedFreightRates := None; numQuotes := None;
               errors := Some [rateLimitExceeded toLocaleTimeString st];
               rateLimit := Some st |},
     tick w).
Proof.
  rewrite getRateLimitStatus_run. cbn [fst]. intros [= Hst] Hrem.
  unfold request, bind. rewrite checkRateLimit_run. cbv zeta. rewrite Hst.
  cbv beta iota. rewrite Hrem. reflexivity.
Qed.

(** With no quota left, the status names the reset time: one window after
    the oldest call still inside the window. *)
Lemma exhausted_resetsAt (recent : list Z) :
  remaining (statusOf toLocaleTimeString recent) = 0 ->
  exists oldest,
    In oldest recent
    /\ (forall t, In t recent -> oldest <= t)
    /\ resetsAt (statusOf toLocaleTimeString recent)
       = Some (oldest + RATE_LIMIT_WINDOW_MS).
Proof.
  unfold statusOf. cbn [remaining resetsAt]. intros Hrem.
  destruct recent as [|c rest].
  - discriminate Hrem.
  - rewrite Hrem. cbn [Z.eqb].
    destruct (Math_min_spec c rest) as [Hin Hle].
    exists (JS.Math_min c rest). auto.
Qed.

(** C1.  When the status computed at the pre-flight check has [remaining]
    0, each of [getQuote], [getQuoteEstimate] and [compareRates] (and
    [request] on any parameters) issues no network call, leaves the
    rate-limit file as it was, and returns (does not throw) an outcome whose
    error list holds exactly one message, with that status attached and no
    rates.  The message is the "Rate limit exceeded" text and includes the
    reset time, one window after the oldest call inside the window, as
    [toLocaleTimeString] shows it. *)
Theorem exhausted_quota_short_circuits (w : World) (st : RateLimitStatus)
  (options : QuoteOptions.t) (params : URLSearchParams.t)
  (run : Eff QuoteResponse) :
  fst (getRateLimitStatus clock toLocaleTimeString w) = Return st ->
  remaining st = 0 ->
  In run
    [getQuote clock toLocaleTimeString numToString encode upstream config options;
     getQuoteEstimate clock toLocaleTimeString numToString encode upstream config
       options;
     compareRates clock toLocaleTimeString numToString encode upstream config
       options;
     request clock toLocaleTimeString encode upstream config params] ->
  exists message reset oldest w',
    run w = (Return {| estimatedFreightRates := None; numQuotes := None;
                       errors := Some [message]; rateLimit := Some st |}, w')
    /\ network w' = network w
    /\ rateLimitFile w' = rateLimitFile w
    /\ message = rateLimitExceeded toLocaleTimeString st
    /\ resetsAt st = Some reset
    /\ reset = oldest + 60 * 60 * 1000
    /\ In oldest (validCalls (clock (ticks w)) (persisted (rateLimitFile w)))
    /\ (forall t, In t (validCalls (clock (ticks w)) (persisted (rateLimitFile w)))
                  -> oldest <= t)
    /\ JS.includes message (toLocaleTimeString reset).
Proof.
  intros Hst Hrem Hrun.
  assert (Hreset : exists oldest,
             In oldest (validCalls (clock (ticks w)) (persisted (rateLimitFile w)))
             /\ (forall t,
                   In t (validCalls (clock (ticks w)) (persisted (rateLimitFile w)))
                   -> oldest <= t)
             /\ resetsAt st = Some (oldest + RATE_LIMIT_WINDOW_MS)).
  { pose proof Hst as Hst'. rewrite getRateLimitStatus_run in Hst'.
    cbn [fst] in Hst'. injection Hst' as <-. now apply exhausted_resetsAt. }
  destruct Hreset as (oldest & Hin & Hle & Hres).
  assert (Hgo : forall params',
             request clock toLocaleTimeString encode upstream config params' w
             = (Return {| estimatedFreightRates := None; numQuotes := None;
                          errors := Some [rateLimitExceeded toLocaleTimeString st];
                          rateLimit := Some st |}, tick w))
    by (intros; now apply request_denied).
  exists (rateLimitExceeded toLocaleTimeString st),
         (oldest + RATE_LIMIT_WINDOW_MS), oldest, (tick w).
  split.
  { cbn [In] in Hrun.
    destruct Hrun as [<-|[<-|[<-|[<-|[]]]]];
      unfold getQuote, getQuoteEstimate, compareRates; apply Hgo. }
  repeat (split; [first [reflexivity | assumption]|]).
  unfold rateLimitExceeded. rewrite Hres. cbn [option_map].
  destruct (or_else_includes
              (toLocaleTimeString (oldest + RATE_LIMIT_WINDOW_MS)) "later")
    as (before & after & ->).
  exists ("Rate limit exceeded: " ++ JS.show (callsInLastHour st) ++ "/"
          ++ JS.show (limit st) ++ " calls in the last hour. Try again at "
          ++ before), (after ++ ".").
  rewrite !append_assoc. reflexivity.
Qed.

(** What [request] does once the pre-flight check lets it through and the
    HTTP call resolves. *)
Lemma request_allowed (params : URLSearchParams.t) (w : World)
  (st : RateLimitStatus) (r : HttpResponse.t) :
  fst (getRateLimitStatus clock toLocaleTimeString w) = Return st ->
  0 < remaining st ->
  upstream (requestFor encode config params) = Resolved r ->
  let w2 := snd (recordCall clock (sent (requestFor encode config params) (tick w))) in
  request clock toLocaleTimeString encode upstream config params w
  = if negb (HttpResponse.ok r)
    then (Throw ("Freightos API error (" ++ JS.show (HttpResponse.status r)
                 ++ "): " ++ HttpResponse.text r), w2)
    else
      match HttpResponse.json r with
      | None => (Throw "Unexpected token in JSON", w2)
      | Some raw =>
          let current :=
            statusOf toLocaleTimeString
              (validCalls (clock (ticks w2)) (persisted (rateLimitFile w2))) in
          let data := set_rateLimit (transformResponse raw) current in
          if hasErrors data
          then (Throw ("Freightos API errors: "
                       ++ JS.join ", " (match errors data with
                                        | Some es => es
                                        | None => []
                                        end)), tick w2)
          else (Return data, tick w2)
      end.
Proof.
  intros Hst Hrem Hup w2.
  rewrite getRateLimitStatus_run in Hst. cbn [fst] in Hst. injection Hst as Hst.
  unfold request, bind. rewrite checkRateLimit_run. cbv zeta. rewrite Hst.
  cbv beta iota.
  destruct (Z.gtb_spec (remaining st) 0) as [_|]; [|lia]. cbn [negb].
  unfold fetch. fold (requestFor encode config params). rewrite Hup.
  cbv beta iota.
  rewrite (surjective_pairing
             (recordCall clock (sent (requestFor encode config params) (tick w)))).
  fold w2. rewrite recordCall_run. cbn [fst].
  destruct (negb (HttpResponse.ok r)); [reflexivity|].
  unfold response_json.
  destruct (HttpResponse.json r) as [raw|]; [|reflexivity].
  unfold ret at 1. cbv beta iota.
  rewrite getRateLimitStatus_run.
  destruct (hasErrors _); reflexivity.
Qed.

(** C2 (amended).  When the pre-flight check lets [request] through and
    the HTTP call resolves (with whatever status and body), [request] issues
    exactly that one call.  When the rate-limit file can be written, it
    leaves in the file the previously stored list pruned at the time of
    recording with the time of recording appended: one entry more than the
    pruned list.  When the write fails, the error is swallowed and the file
    is left as it was.  Both hold when a non-success status makes [request]
    throw and when a 200 body carrying error messages makes it throw. *)
Theorem completed_call_is_recorded (params : URLSearchParams.t) (w : World)
  (st : RateLimitStatus) (r : HttpResponse.t) :
  fst (getRateLimitStatus clock toLocaleTimeString w) = Return st ->
  0 < remaining st ->
  upstream (requestFor encode config params) = Resolved r ->
  let result := request clock toLocaleTimeString encode upstream config params w in
  let pruned := validCalls (clock (S (ticks w))) (persisted (rateLimitFile w)) in
  let now := clock (S (S (ticks w))) in
  network (snd result) = (network w ++ [requestFor encode config params])%list
  /\ (cacheWritable w = true ->
      rateLimitFile (snd result) = FileJson (Some (pruned ++ [now])%list)
      /\ persisted (rateLimitFile (snd result)) = (pruned ++ [now])%list
      /\ List.length (persisted (rateLimitFile (snd result)))
         = S (List.length pruned))
  /\ (cacheWritable w = false ->
      rateLimitFile (snd result) = rateLimitFile w)
  /\ (HttpResponse.ok r = false ->
      fst result
      = Throw ("Freightos API error (" ++ JS.show (HttpResponse.status r)
               ++ "): " ++ HttpResponse.text r))
  /\ (forall raw,
        HttpResponse.ok r = true ->
        HttpResponse.json r = Some raw ->
        errorsOf raw <> [] ->
        fst result
        = Throw ("Freightos API errors: " ++ JS.join ", " (errorsOf raw))).
Proof.
  intros Hst Hrem Hup result pruned now. subst result.
  rewrite (request_allowed params w st r Hst Hrem Hup).
  rewrite recordCall_run. cbn [sent tick cacheWritable ticks rateLimitFile snd].
  fold pruned now.
  set (w2 := if cacheWritable w then _ else _).
  assert (Hnet : network w2
                 = (network w ++ [requestFor encode config params])%list)
    by (unfold w2; destruct (cacheWritable w); reflexivity).
  assert (Hyes : cacheWritable w = true ->
                 rateLimitFile w2 = FileJson (Some (pruned ++ [now])%list))
    by (unfold w2; intros ->; reflexivity).
  assert (Hno : cacheWritable w = false -> rateLimitFile w2 = rateLimitFile w)
    by (unfold w2; intros ->; reflexivity).
  assert (Hlen : List.length (pruned ++ [now]) = S (List.length pruned))
    by (rewrite length_app; simpl; lia).
  assert (Hworld : forall w',
             network w' = network w2 -> rateLimitFile w' = rateLimitFile w2 ->
             network w' = (network w ++ [requestFor encode config params])%list
             /\ (cacheWritable w = true ->
                 rateLimitFile w' = FileJson (Some (pruned ++ [now])%list)
                 /\ persisted (rateLimitFile w') = (pruned ++ [now])%list
                 /\ List.length (persisted (rateLimitFile w'))
                    = S (List.length pruned))
             /\ (cacheWritable w = false -> rateLimitFile w' = rateLimitFile w)).
  { intros w' Hn Hf. rewrite Hn, Hf. split; [exact Hnet|]. split.
    - intros Ht. rewrite (Hyes Ht). cbn [persisted]. auto.
    - exact Hno. }
  clearbody w2.
  destruct (HttpResponse.ok r) eqn:Hok; cbn [negb].
  - destruct (HttpResponse.json r) as [raw|] eqn:Hjson.
    + cbv zeta.
      destruct (transformResponse_hasErrors_of raw) as [Hh Hmsgs].
      assert (Hh' : forall s, hasErrors (set_rateLimit (transformResponse raw) s)
                              = hasErrors (transformResponse raw)) by reflexivity.
      assert (He' : forall s, errors (set_rateLimit (transformResponse raw) s)
                              = errors (transformResponse raw)) by reflexivity.
      rewrite Hh', He', Hh.
      destruct (errorsOf raw) as [|m ms] eqn:E; cbn [fst snd].
      * destruct (Hworld (tick w2) eq_refl eq_refl) as (H1 & H2 & H3).
        repeat (split; [first [assumption | discriminate]|]).
        intros raw' _ [= <-]. rewrite E. congruence.
      * destruct (Hworld (tick w2) eq_refl eq_refl) as (H1 & H2 & H3).
        repeat (split; [first [assumption | discriminate]|]).
        intros raw' _ [= <-] _. rewrite E, (Hmsgs ltac:(discriminate)).
        reflexivity.
    + cbn [fst snd].
      destruct (Hworld w2 eq_refl eq_refl) as (H1 & H2 & H3).
      repeat (split; [first [assumption | discriminate]|]).
      intros raw _ [=].
  - cbn [fst snd].
    destruct (Hworld w2 eq_refl eq_refl) as (H1 & H2 & H3).
    repeat (split; [first [assumption | reflexivity]|]).
    intros raw [=].
Qed.

End Facade.

(** ** Binary64 evaluation of [percentUsed] *)

Lemma percentUsed_binary64_check :
  forallb (fun c => match Binary64.percentUsed c with
                    | Some p => p =? c
                    | None => false
                    end)
          (map Z.of_nat (seq 0 2048)) = true.
Proof. vm_compute. reflexivity. Qed.

(** For every count below 2048 the double-precision evaluation of
    [Math.round((count / 100) * 100)] is the count, as in [statusOf]. *)
Lemma percentUsed_binary64_agrees (c : Z) :
  0 <= c < 2048 ->
  Binary64.percentUsed c
  = Some (JS.Math_round ((inject_Z c / inject_Z RATE_LIMIT) * 100)%Q).
Proof.
  intros Hc. rewrite Math_round_percent.
  pose proof percentUsed_binary64_check as H.
  rewrite forallb_forall in H.
  specialize (H c).
  destruct (Binary64.percentUsed c) as [p|].
  - f_equal. apply Z.eqb_eq. apply H.
    apply in_map_iff. exists (Z.to_nat c). split; [lia|].
    apply in_seq. lia.
  - assert (false = true); [|discriminate]. apply H.
    apply in_map_iff. exists (Z.to_nat c). split; [lia|].
    apply in_seq. lia.
Qed.

(** ** Concrete runs *)

Example buildParams_container :
  URLSearchParams.toString Sample.encode
    (buildParams Sample.numToString Sample.container)
  = "origin=CNNGB&destination=GBSOU&loadtype=container40HC&weight=15000&format=json".
Proof. reflexivity. Qed.

Example buildParams_pallets :
  buildParams Sample.numToString Sample.options
  = [("origin", "CNNGB"); ("destination", "GBSOU"); ("loadtype", "pallets");
     ("weight", "500"); ("width", "120cm"); ("length", "100cm");
     ("height", "180cm"); ("quantity", "6"); ("mode", "LCL"); ("format", "json")].
Proof. reflexivity. Qed.

Example first_call_is_recorded :
  persisted
    (rateLimitFile
       (snd (getQuote Sample.clock Sample.toLocaleTimeString Sample.numToString
               Sample.encode
               (Sample.answering
                  (Sample.okResponse (Sample.rawRates (Some (Raw.One Sample.sea)) 1)))
               Sample.config Sample.container (Sample.world [] true))))
  = [4002000].
Proof. reflexivity. Qed.

Example status_at_eighty :
  warning (Sample.statusAt (Sample.history 80))
  = Some "Rate limit warning: 80/100 calls used (80%). 20 remaining this hour.".
Proof. vm_compute. reflexivity. Qed.

Example status_at_hundred :
  warning (Sample.statusAt (Sample.history 100))
  = Some "RATE LIMIT REACHED: 100/100 calls used. Wait until 6600001 for more capacity.".
Proof. vm_compute. reflexivity. Qed.

(** ** Instances of the theorems *)

Lemma cleanOldCalls_prunes_exactly_witness :
  Permutation [400000; 400001; 3999000] [3999000; 400000; 400001]
  /\ exists kept kept',
       fst (cleanOldCalls Sample.clock [400000; 400001; 3999000]
              (Sample.world [] true)) = Return kept
       /\ fst (cleanOldCalls Sample.clock [3999000; 400000; 400001]
                 (Sample.world [] true)) = Return kept'
       /\ kept = [400001; 3999000]
       /\ Permutation kept kept'.
Proof.
  assert (HP : Permutation [400000; 400001; 3999000] [3999000; 400000; 400001])
    by (apply Permutation_sym;
        exact (Permutation_cons_append [400000; 400001] 3999000)).
  split; [exact HP|].
  destruct (cleanOldCalls_prunes_exactly Sample.clock [400000; 400001; 3999000]
              (Sample.world [] true))
    as (kept & Hk & _ & _ & Hperm).
  destruct (Hperm _ HP) as (kept' & Hk' & Hpk).
  exists kept, kept'. repeat split; try assumption.
  vm_compute in Hk. now injection Hk as <-.
Defined.

Lemma warning_thresholds_witness :
  exists st,
    fst (getRateLimitStatus Sample.clock Sample.toLocaleTimeString
           (Sample.world (Sample.history 80) true)) = Return st
    /\ callsInLastHour st = 80
    /\ warning st <> None.
Proof.
  destruct (warning_thresholds Sample.clock Sample.toLocaleTimeString
              (Sample.world (Sample.history 80) true))
    as (st & Hst & Hc & Hw & _).
  exists st. split; [exact Hst|].
  assert (H80 : callsInLastHour st = 80) by (rewrite Hc; vm_compute; reflexivity).
  split; [exact H80|]. apply Hw. rewrite H80. lia.
Defined.

Lemma percentUsed_is_count_uncapped_witness :
  exists st,
    fst (getRateLimitStatus Sample.clock Sample.toLocaleTimeString
           (Sample.world (Sample.history 101) true)) = Return st
    /\ callsInLastHour st = 101
    /\ percentUsed st = 101
    /\ remaining st = 0.
Proof.
  destruct (percentUsed_is_count_uncapped Sample.clock Sample.toLocaleTimeString
              (Sample.world (Sample.history 101) true))
    as (st & Hst & Hc & Hp & _ & Hover).
  exists st. split; [exact Hst|].
  assert (H101 : callsInLastHour st = 101) by (rewrite Hc; vm_compute; reflexivity).
  split; [exact H101|]. split; [now rewrite Hp|].
  apply Hover. rewrite H101. lia.
Defined.

Lemma errors_give_error_outcome_witness :
  Raw.errors (response Sample.badRoute) = Some (Raw.Message "bad route")
  /\ errorMessages (Raw.Message "bad route") <> []
  /\ transformResponse Sample.badRoute = errorOutcome ["bad route"].
Proof.
  assert (Hne : errorMessages (Raw.Message "bad route") <> []) by discriminate.
  split; [reflexivity|]. split; [exact Hne|].
  exact (proj1 (errors_give_error_outcome Sample.badRoute
                  (Raw.Message "bad route") eq_refl Hne)).
Defined.

Lemma empty_errors_are_ignored_witness :
  let raw :=
    {| response :=
         {| Raw.estimatedFreightRates :=
              Some {| Raw.modes := Some (Raw.One Sample.sea); Raw.numQuotes := 1 |};
            Raw.errors := Some (Raw.Items []) |} |} in
  Raw.errors (response raw) = Some (Raw.Items [])
  /\ transformResponse raw = successOutcome [flattenMode Sample.sea] 1.
Proof.
  intros raw. split; [reflexivity|].
  destruct (empty_errors_are_ignored raw (Raw.Items []) eq_refl
              (or_intror eq_refl)) as (_ & _ & Hr & _).
  rewrite Hr. reflexivity.
Defined.

Lemma no_rates_is_success_witness :
  errorsOf Sample.noQuotes = []
  /\ transformResponse Sample.noQuotes = successOutcome [] 0.
Proof.
  split; [reflexivity|].
  exact (proj1 (no_rates_is_success Sample.noQuotes
                  {| Raw.modes := None; Raw.numQuotes := 0 |}
                  eq_refl eq_refl (or_introl eq_refl))).
Defined.

Lemma modes_flatten_uniformly_witness :
  let one := Sample.rawRates (Some (Raw.One Sample.sea)) 1 in
  let many := Sample.rawRates (Some (Raw.Many [Sample.sea; Sample.air])) 2 in
  estimatedFreightRates (transformResponse one) = Some [flattenMode Sample.sea]
  /\ estimatedFreightRates (transformResponse many)
     = Some [flattenMode Sample.sea; flattenMode Sample.air].
Proof.
  intros one many. split.
  - assert (H1 : (1 <> 0)%Z) by discriminate.
    destruct (modes_flatten_uniformly one
                {| Raw.modes := Some (Raw.One Sample.sea); Raw.numQuotes := 1 |}
                (Raw.One Sample.sea) eq_refl eq_refl H1 eq_refl)
      as (_ & Hone & _).
    exact (Hone Sample.sea eq_refl).
  - assert (H2 : (2 <> 0)%Z) by discriminate.
    destruct (modes_flatten_uniformly many
                {| Raw.modes := Some (Raw.Many [Sample.sea; Sample.air]);
                   Raw.numQuotes := 2 |}
                (Raw.Many [Sample.sea; Sample.air]) eq_refl eq_refl H2 eq_refl)
      as (Hout & _).
    rewrite Hout. reflexivity.
Defined.

Lemma buildParams_unit_suffixes_witness :
  QuoteOptions.width Sample.options = Some 120%Q
  /\ QuoteOptions.dimensionUnit Sample.options = Some "cm"
  /\ URLSearchParams.get "width" (buildParams Sample.numToString Sample.options)
     = Some "120cm".
Proof.
  split; [reflexivity|]. split; [reflexivity|].
  destruct (buildParams_unit_suffixes Sample.numToString Sample.options)
    as (_ & _ & _ & _ & _ & Hwidth).
  exact (Hwidth eq_refl eq_refl eq_refl).
Defined.

Lemma exhausted_quota_short_circuits_witness :
  let w := Sample.world (Sample.history 100) true in
  let run :=
    getQuote Sample.clock Sample.toLocaleTimeString Sample.numToString
      Sample.encode (Sample.answering Sample.serverError) Sample.config
      Sample.options in
  remaining (Sample.statusAt (Sample.history 100)) = 0
  /\ exists message w',
       run w = (Return {| estimatedFreightRates := None; numQuotes := None;
                          errors := Some [message];
                          rateLimit := Some (Sample.statusAt (Sample.history 100)) |},
                w')
       /\ network w' = []
       /\ persisted (rateLimitFile w') = Sample.history 100
       /\ JS.includes message "6600001".
Proof.
  intros w run.
  assert (Hrem : remaining (Sample.statusAt (Sample.history 100)) = 0)
    by (vm_compute; reflexivity).
  split; [exact Hrem|].
  destruct (exhausted_quota_short_circuits Sample.clock Sample.toLocaleTimeString
              Sample.numToString Sample.encode
              (Sample.answering Sample.serverError) Sample.config
              w (Sample.statusAt (Sample.history 100)) Sample.options [] run
              eq_refl Hrem (or_introl eq_refl))
    as (message & reset & oldest & w' & Hrun & Hnet & Hfile & _ & Hreset & _ & _ & _
        & Hincl).
  exists message, w'. split; [exact Hrun|]. split; [exact Hnet|].
  split; [now rewrite Hfile|].
  vm_compute in Hreset. injection Hreset as <-. exact Hincl.
Defined.

Lemma completed_call_is_recorded_witness :
  let w := Sample.world (Sample.history 3) true in
  let upstream := Sample.answering Sample.serverError in
  let result :=
    request Sample.clock Sample.toLocaleTimeString Sample.encode upstream
      Sample.config [] w in
  0 < remaining (Sample.statusAt (Sample.history 3))
  /\ cacheWritable w = true
  /\ persisted (rateLimitFile (snd result))
     = [3000001; 3001001; 3002001; 4002000]
  /\ fst result = Throw "Freightos API error (500): Internal Server Error".
Proof.
  intros w upstream result.
  assert (Hrem : 0 < remaining (Sample.statusAt (Sample.history 3)))
    by (vm_compute; reflexivity).
  split; [exact Hrem|]. split; [reflexivity|].
  destruct (completed_call_is_recorded Sample.clock Sample.toLocaleTimeString
              Sample.encode upstream Sample.config [] w
              (Sample.statusAt (Sample.history 3)) Sample.serverError
              eq_refl Hrem eq_refl)
    as (_ & Hwritten & _ & Hthrow & _).
  destruct (Hwritten eq_refl) as (_ & Hlist & _).
  split; [exact Hlist | exact (Hthrow eq_refl)].
Defined.

(** ** Inputs on which the unamended claims fail *)

(** C2 as stated: the HTTP call completes with status 200, but the cache
    directory rejects the write, so the stored list is not extended. *)
Lemma unwritable_cache_keeps_count :
  let w := Sample.world (Sample.history 3) false in
  let upstream := Sample.answering (Sample.okResponse Sample.noQuotes) in
  let result :=
    request Sample.clock Sample.toLocaleTimeString Sample.encode upstream
      Sample.config [] w in
  upstream (requestFor Sample.encode Sample.config [])
  = Resolved (Sample.okResponse Sample.noQuotes)
  /\ network (snd result) = [requestFor Sample.encode Sample.config []]
  /\ persisted (rateLimitFile (snd result)) = persisted (rateLimitFile w)
  /\ persisted (rateLimitFile (snd result))
     <> (validCalls (Sample.clock 1) (persisted (rateLimitFile w))
         ++ [Sample.clock 2])%list.
Proof.
  intros w upstream result.
  split; [reflexivity|]. split; [reflexivity|]. split; [reflexivity|].
  vm_compute. discriminate.
Qed.

(** C5 as stated: no [mode] field and [numQuotes] 5 gives an empty rate list
    with [numQuotes] 5, not 0. *)
Lemma absent_mode_keeps_numQuotes :
  let raw := Sample.rawRates None 5 in
  Raw.estimatedFreightRates (response raw)
  = Some {| Raw.modes := None; Raw.numQuotes := 5 |}
  /\ transformResponse raw = successOutcome [] 5
  /\ numQuotes (transformResponse raw) <> Some 0.
Proof.
  intros raw. split; [reflexivity|]. split; [reflexivity|]. discriminate.
Qed.

(** ** The no-quotes guard *)

(** The no-quotes guard comes first: with [numQuotes] 0, a [mode] field
    holding one object or an array of two objects gives an empty rate
    list. *)
Lemma zero_numQuotes_drops_modes :
  let one := Sample.rawRates (Some (Raw.One Sample.sea)) 0 in
  let many := Sample.rawRates (Some (Raw.Many [Sample.sea; Sample.air])) 0 in
  estimatedFreightRates (transformResponse one) = Some []
  /\ estimatedFreightRates (transformResponse many) = Some []
  /\ estimatedFreightRates (transformResponse one) <> Some [flattenMode Sample.sea]
  /\ estimatedFreightRates (transformResponse many)
     <> Some [flattenMode Sample.sea; flattenMode Sample.air].
Proof.
  intros one many. repeat split; discriminate.
Qed.

(** * Further properties *)

(** ** Quota arithmetic and the reset time *)

Lemma validCalls_length_le (now : Z) (stored : list Z) :
  (List.length (validCalls now stored) <= List.length stored)%nat.
Proof. apply filter_length_le. Qed.

Lemma filter_length_mono {A} (p q : A -> bool) (l : list A) :
  (forall x, In x l -> q x = true -> p x = true) ->
  (List.length (filter q l) <= List.length (filter p l))%nat.
Proof.
  induction l as [|x l IH]; intros Himp; simpl; [lia|].
  assert (IH' : (List.length (filter q l) <= List.length (filter p l))%nat)
    by (apply IH; intros y Hy; apply Himp; now right).
  destruct (q x) eqn:Hq.
  - rewrite (Himp x (or_introl eq_refl) Hq). simpl. lia.
  - destruct (p x); simpl; lia.
Qed.

Lemma filter_length_strict {A} (p q : A -> bool) (l : list A) (a : A) :
  (forall x, In x l -> q x = true -> p x = true) ->
  In a l -> p a = true -> q a = false ->
  (List.length (filter q l) < List.length (filter p l))%nat.
Proof.
  induction l as [|x l IH]; intros Himp Hin Hp Hq; [contradiction|].
  assert (Hle : (List.length (filter q l) <= List.length (filter p l))%nat)
    by (apply filter_length_mono; intros y Hy; apply Himp; now right).
  simpl. destruct Hin as [->|Hin].
  - rewrite Hp, Hq. simpl. lia.
  - assert (IH' : (List.length (filter q l) < List.length (filter p l))%nat)
      by (apply IH; auto; intros y Hy; apply Himp; now right).
    destruct (q x) eqn:Hqx.
    + rewrite (Himp x (or_introl eq_refl) Hqx). simpl. lia.
    + destruct (p x); simpl; lia.
Qed.

(** Later readings only shrink the set of calls inside the window. *)
Lemma validCalls_later (now later : Z) (stored : list Z) :
  now <= later ->
  (List.length (validCalls later stored) <= List.length (validCalls now stored))%nat.
Proof.
  intros Hle. unfold validCalls. apply filter_length_mono.
  intros x _ Hx. apply Z.gtb_lt in Hx. apply Z.gtb_lt. lia.
Qed.

Section Quota.

Variable clock : nat -> Z.
Variable toLocaleTimeString : Z -> string.

(** X1.  [checkRateLimit] allows a call exactly when fewer than 100 stored
    calls are inside the window.  The status it returns is the one
    [getRateLimitStatus] computes; its [remaining] is [100 - count] below
    the limit and 0 from the limit on, so it always lies between 0 and 100;
    it has a reset time exactly when the limit is reached.  The check
    itself changes neither the rate-limit file (stale entries are not
    written back) nor the network log. *)
Theorem checkRateLimit_allows_below_limit (w : World) :
  let count := callsInWindow clock w in
  let result := checkRateLimit clock toLocaleTimeString w in
  exists st,
    fst result = Return (count <? 100, st)
    /\ fst (getRateLimitStatus clock toLocaleTimeString w) = Return st
    /\ callsInLastHour st = count
    /\ remaining st = (if count <? 100 then 100 - count else 0)
    /\ 0 <= remaining st <= 100
    /\ (resetsAt st = None <-> count < 100)
    /\ rateLimitFile (snd result) = rateLimitFile w
    /\ network (snd result) = network w.
Proof.
  intros count result. subst result.
  rewrite checkRateLimit_run, getRateLimitStatus_run. cbv zeta. cbn [fst snd].
  set (recent := validCalls _ _).
  assert (Hc : count = Z.of_nat (List.length recent)) by reflexivity.
  assert (Hpos : 0 <= count) by lia.
  exists (statusOf toLocaleTimeString recent).
  rewrite statusOf_remaining, statusOf_callsInLastHour, <- Hc.
  unfold RATE_LIMIT.
  assert (Hgt : (Z.max 0 (100 - count) >? 0) = (count <? 100))
    by (destruct (Z.gtb_spec (Z.max 0 (100 - count)) 0),
                 (Z.ltb_spec count 100); (reflexivity || lia)).
  rewrite Hgt.
  split; [reflexivity|]. split; [reflexivity|]. split; [reflexivity|].
  destruct (Z.ltb_spec count 100) as [Hlt|Hge].
  - split; [lia|]. split; [lia|]. split; [|split; reflexivity].
    split; [intros _; exact Hlt|]. intros _.
    unfold statusOf. cbn [resetsAt]. destruct recent as [|c rest]; [reflexivity|].
    unfold RATE_LIMIT.
    destruct (Z.eqb_spec (Z.max 0 (100 - Z.of_nat (List.length (c :: rest)))) 0);
      [lia | reflexivity].
  - split; [lia|]. split; [lia|]. split; [|split; reflexivity].
    split; [|lia]. intros Hnone. exfalso.
    destruct (exhausted_resetsAt toLocaleTimeString recent) as (o & _ & _ & Hr).
    + rewrite statusOf_remaining, <- Hc. unfold RATE_LIMIT. lia.
    + congruence.
Qed.

(** X2.  When the status has a reset time, the limit is reached, the reset
    time lies strictly after the time of the query, no stored call leaves
    the window before the reset time, and at the reset time at least one
    has left: with exactly 100 calls inside the window, a check made at
    the reset time finds quota again. *)
Theorem resetsAt_is_first_expiry (w : World) (st : RateLimitStatus) (reset : Z) :
  fst (getRateLimitStatus clock toLocaleTimeString w) = Return st ->
  resetsAt st = Some reset ->
  let now := clock (ticks w) in
  let stored := persisted (rateLimitFile w) in
  100 <= callsInLastHour st
  /\ now < reset
  /\ (forall t, now <= t < reset -> validCalls t stored = validCalls now stored)
  /\ (List.length (validCalls reset stored)
      < List.length (validCalls now stored))%nat
  /\ (callsInLastHour st = 100 ->
      remaining (statusOf toLocaleTimeString (validCalls reset stored)) > 0).
Proof.
  intros Hst Hreset now stored.
  rewrite getRateLimitStatus_run in Hst. cbn [fst] in Hst. injection Hst as <-.
  fold now stored in Hreset |- *.
  set (recent := validCalls now stored) in *.
  assert (Hrem : remaining (statusOf toLocaleTimeString recent) = 0).
  { unfold statusOf in Hreset |- *. cbn [resetsAt remaining] in *.
    destruct recent as [|c rest]; [discriminate|].
    destruct (Z.eqb_spec
                (Z.max 0 (RATE_LIMIT - Z.of_nat (List.length (c :: rest)))) 0);
      [assumption | discriminate]. }
  destruct (exhausted_resetsAt toLocaleTimeString recent Hrem)
    as (oldest & Hin & Hle & Hr).
  rewrite Hr in Hreset. injection Hreset as <-.
  assert (Hold : In oldest stored /\ now - oldest < RATE_LIMIT_WINDOW_MS)
    by (now apply validCalls_In).
  destruct Hold as [Hstored Hnew].
  rewrite statusOf_remaining in Hrem. rewrite statusOf_callsInLastHour.
  unfold RATE_LIMIT in Hrem.
  split; [lia|]. split; [lia|]. split; [|split].
  - intros t Ht. unfold validCalls. apply filter_ext_in. intros x Hx.
    destruct (Z.gtb_spec x (now - RATE_LIMIT_WINDOW_MS)) as [Hv|Hv].
    + assert (In x recent) by (apply validCalls_In; split; [assumption | lia]).
      specialize (Hle x H). apply Z.gtb_lt. lia.
    + destruct (Z.gtb_spec x (t - RATE_LIMIT_WINDOW_MS)); [lia | reflexivity].
  - unfold recent, validCalls.
    apply filter_length_strict with (a := oldest); try assumption.
    + intros x _ Hx. apply Z.gtb_lt in Hx. apply Z.gtb_lt. lia.
    + apply Z.gtb_lt. lia.
    + destruct (Z.gtb_spec oldest (oldest + RATE_LIMIT_WINDOW_MS
                                   - RATE_LIMIT_WINDOW_MS)); [lia | reflexivity].
  - intros H100. rewrite statusOf_remaining. unfold RATE_LIMIT.
    assert (Hlt : (List.length (validCalls (oldest + RATE_LIMIT_WINDOW_MS) stored)
                   < List.length recent)%nat).
    { unfold recent, validCalls.
      apply filter_length_strict with (a := oldest); try assumption.
      - intros x _ Hx. apply Z.gtb_lt in Hx. apply Z.gtb_lt. lia.
      - apply Z.gtb_lt. lia.
      - destruct (Z.gtb_spec oldest (oldest + RATE_LIMIT_WINDOW_MS
                                     - RATE_LIMIT_WINDOW_MS)); [lia | reflexivity]. }
    lia.
Qed.

(** X3.  A rate-limit file that is missing, unreadable or without a [calls]
    field counts as an empty history: the status shows no call, all 100
    remaining, no reset time and no warning, and the next call is allowed.
    Recording a call then replaces the file, when it can be written, by a
    document holding exactly the time of recording. *)
Theorem unusable_file_is_empty_history (w : World) :
  rateLimitFile w = FileMissing \/ rateLimitFile w = FileCorrupt
  \/ rateLimitFile w = FileJson None ->
  fst (getRateLimitStatus clock toLocaleTimeString w)
  = Return {| callsInLastHour := 0; limit := 100; remaining := 100;
              percentUsed := 0; resetsAt := None; warning := None |}
  /\ (exists st, fst (checkRateLimit clock toLocaleTimeString w) = Return (true, st))
  /\ (cacheWritable w = true ->
      rateLimitFile (snd (recordCall clock w))
      = FileJson (Some [clock (S (ticks w))])).
Proof.
  intros Hfile.
  assert (Hp : persisted (rateLimitFile w) = [])
    by (destruct Hfile as [->|[->| ->]]; reflexivity).
  rewrite checkRateLimit_run, getRateLimitStatus_run, recordCall_run, Hp.
  cbn [fst]. split; [reflexivity|]. split; [eexists; reflexivity|].
  intros ->. reflexivity.
Qed.

End Quota.

(** ** What a request does to the world *)

(** The error check of [transformResponse] never leaves an empty error
    list behind. *)
Lemma transformResponse_hasErrors (raw : RawApiResponse) :
  hasErrors (transformResponse raw)
  = match errorsOf raw with [] => false | _ => true end
  /\ (errorsOf raw = [] -> errors (transformResponse raw) = None).
Proof.
  rewrite transformResponse_errors.
  destruct (errorsOf raw) as [|m ms]; [|split; [reflexivity | discriminate]].
  assert (H : errors (transformRates raw emptyQuoteResponse) = None).
  { unfold transformRates.
    destruct (Raw.estimatedFreightRates (response raw)) as [rates|]; [|reflexivity].
    destruct (Raw.modes rates); [|reflexivity].
    destruct (Raw.numQuotes rates =? 0); reflexivity. }
  unfold hasErrors. rewrite H. split; [reflexivity | trivial].
Qed.

Section Requests.

Variable clock : nat -> Z.
Variable toLocaleTimeString : Z -> string.
Variable numToString : Q -> string.
Variable encode : string -> string.
Variable upstream : HttpRequest -> FetchResult.
Variable config : FreightosConfig.

(** What [request] does once the pre-flight check lets it through and the
    HTTP call is rejected. *)
Lemma request_rejected (params : URLSearchParams.t) (w : World)
  (st : RateLimitStatus) (reason : string) :
  fst (getRateLimitStatus clock toLocaleTimeString w) = Return st ->
  0 < remaining st ->
  upstream (requestFor encode config params) = Rejected reason ->
  request clock toLocaleTimeString encode upstream config params w
  = (Throw reason, sent (requestFor encode config params) (tick w)).
Proof.
  intros Hst Hrem Hup.
  rewrite getRateLimitStatus_run in Hst. cbn [fst] in Hst. injection Hst as Hst.
  unfold request, bind. rewrite checkRateLimit_run. cbv zeta. rewrite Hst.
  cbv beta iota.
  destruct (Z.gtb_spec (remaining st) 0) as [_|]; [|lia]. cbn [negb].
  unfold fetch. fold (requestFor encode config params). rewrite Hup.
  reflexivity.
Qed.

(** X4.  When the pre-flight check lets [request] through and the HTTP call
    fails at the network layer, [request] throws the failure, the attempt
    is the only network call, and nothing is recorded: the rate-limit file
    is left as it was, so the failed attempt consumes no quota. *)
Theorem rejected_fetch_is_not_recorded (params : URLSearchParams.t) (w : World)
  (st : RateLimitStatus) (reason : string) :
  fst (getRateLimitStatus clock toLocaleTimeString w) = Return st ->
  0 < remaining st ->
  upstream (requestFor encode config params) = Rejected reason ->
  let result := request clock toLocaleTimeString encode upstream config params w in
  fst result = Throw reason
  /\ network (snd result) = (network w ++ [requestFor encode config params])%list
  /\ rateLimitFile (snd result) = rateLimitFile w.
Proof.
  intros Hst Hrem Hup result. subst result.
  rewrite (request_rejected params w st reason Hst Hrem Hup).
  repeat split.
Qed.

(** The three ways through [request]. *)
Lemma request_cases (params : URLSearchParams.t) (w : World) :
  let st := statusOf toLocaleTimeString
              (validCalls (clock (ticks w)) (persisted (rateLimitFile w))) in
  let rq := requestFor encode config params in
  let result := request clock toLocaleTimeString encode upstream config params w in
  (remaining st = 0
   /\ result
      = (Return {| estimatedFreightRates := None; numQuotes := None;
                   errors := Some [rateLimitExceeded toLocaleTimeString st];
                   rateLimit := Some st |}, tick w))
  \/ (0 < remaining st
      /\ exists reason, upstream rq = Rejected reason
                        /\ result = (Throw reason, sent rq (tick w)))
  \/ (0 < remaining st
      /\ exists r, upstream rq = Resolved r
         /\ let w2 := snd (recordCall clock (sent rq (tick w))) in
            (snd result = w2 \/ snd result = tick w2)
            /\ forall data, fst result = Return data ->
                 exists raw,
                   HttpResponse.json r = Some raw
                   /\ errorsOf raw = []
                   /\ snd result = tick w2
                   /\ data = set_rateLimit (transformResponse raw)
                               (statusOf toLocaleTimeString
                                  (validCalls (clock (ticks w2))
                                     (persisted (rateLimitFile w2))))).
Proof.
  intros st rq result.
  assert (Hst : fst (getRateLimitStatus clock toLocaleTimeString w) = Return st)
    by (rewrite getRateLimitStatus_run; reflexivity).
  assert (Hnn : 0 <= remaining st)
    by (unfold st; rewrite statusOf_remaining; lia).
  destruct (Z.eq_dec (remaining st) 0) as [H0|Hpos].
  - left. split; [exact H0|]. now apply request_denied.
  - right. assert (Hrem : 0 < remaining st) by lia.
    destruct (upstream rq) as [r|reason] eqn:Hup.
    + right. split; [exact Hrem|]. exists r. split; [reflexivity|].
      subst result.
      rewrite (request_allowed clock toLocaleTimeString encode upstream config
                 params w st r Hst Hrem Hup).
      fold rq. cbv zeta. set (w2 := snd (recordCall clock (sent rq (tick w)))).
      destruct (negb (HttpResponse.ok r)).
      { split; [now left | discriminate]. }
      destruct (HttpResponse.json r) as [raw|].
      2:{ split; [now left | discriminate]. }
      destruct (transformResponse_hasErrors raw) as [Hh Hnone].
      assert (Hh' : forall s, hasErrors (set_rateLimit (transformResponse raw) s)
                              = hasErrors (transformResponse raw)) by reflexivity.
      rewrite Hh', Hh.
      destruct (errorsOf raw) as [|m ms] eqn:E.
      * split; [now right|]. intros data [= <-]. exists raw. auto.
      * split; [now right | discriminate].
    + left. split; [exact Hrem|]. exists reason. split; [reflexivity|].
      now apply request_rejected with (st := st).
Qed.


(** One request keeps the number of calls inside the window at or below
    the limit, when the clock does not run backwards. *)
Lemma request_keeps_quota (params : URLSearchParams.t) (w : World) :
  (forall i j, (i <= j)%nat -> clock i <= clock j) ->
  callsInWindow clock w <= 100 ->
  callsInWindow clock
    (snd (request clock toLocaleTimeString encode upstream config params w))
  <= 100.
Proof.
  intros Hmono Hinv. unfold callsInWindow in *.
  set (stored := persisted (rateLimitFile w)) in *.
  assert (Hlater : forall k, (ticks w <= k)%nat ->
             Z.of_nat (List.length (validCalls (clock k) stored)) <= 100).
  { intros k Hk.
    pose proof (validCalls_later (clock (ticks w)) (clock k) stored
                  (Hmono _ _ Hk)). lia. }
  destruct (request_cases params w) as [[H0 Hr]|[[Hrem (reason & Hup & Hr)]
                                       |[Hrem (r & Hup & Hw & _)]]].
  - rewrite Hr. cbn [snd tick ticks rateLimitFile]. apply Hlater. lia.
  - rewrite Hr. cbn [snd sent tick ticks rateLimitFile]. apply Hlater. lia.
  - rewrite statusOf_remaining in Hrem. fold stored in Hrem.
    unfold RATE_LIMIT in Hrem.
    rewrite recordCall_run in Hw.
    cbn [snd sent tick ticks rateLimitFile cacheWritable] in Hw.
    fold stored in Hw.
    destruct (cacheWritable w).
    + pose proof (validCalls_later (clock (ticks w)) (clock (S (ticks w))) stored
                    (Hmono _ _ (Nat.le_succ_diag_r _))) as Hpr.
      assert (Hlen : forall now,
                 Z.of_nat (List.length
                             (validCalls now
                                (validCalls (clock (S (ticks w))) stored
                                 ++ [clock (S (S (ticks w)))])%list)) <= 100).
      { intros now.
        pose proof (validCalls_length_le now
                      (validCalls (clock (S (ticks w))) stored
                       ++ [clock (S (S (ticks w)))])%list) as Hle.
        rewrite length_app in Hle. simpl in Hle. lia. }
      destruct Hw as [-> | ->];
        cbn [snd sent written tick ticks rateLimitFile persisted]; apply Hlen.
    + destruct Hw as [-> | ->];
        cbn [snd sent tick ticks rateLimitFile]; apply Hlater; lia.
Qed.

(** X6.  When the clock does not run backwards, any sequence of requests
    run one after the other keeps the number of stored calls inside the
    window at or below 100, whatever the upstream answers and whether or
    not the file can be written: a history within the limit never grows
    past it. *)
Theorem sequential_requests_keep_quota (batch : list URLSearchParams.t)
  (w : World) :
  (forall i j, (i <= j)%nat -> clock i <= clock j) ->
  callsInWindow clock w <= 100 ->
  callsInWindow clock
    (fold_left
       (fun world params =>
          snd (request clock toLocaleTimeString encode upstream config params world))
       batch w)
  <= 100.
Proof.
  intros Hmono. revert w.
  induction batch as [|params batch IH]; intros w Hinv; simpl; [exact Hinv|].
  apply IH. now apply request_keeps_quota.
Qed.

End Requests.

(** ** The shape of a normalized response *)

(** X7.  [transformResponse] populates one of two shapes, never both: an
    error list, which is then non-empty and comes with no rate list and no
    quote count, or no error list at all.  It returns a rate list exactly
    when the document yields no error message and holds
    [estimatedFreightRates], and then returns the document's [numQuotes]
    with it; it never attaches a rate-limit status itself. *)
Theorem transformResponse_one_shape (raw : RawApiResponse) :
  let result := transformResponse raw in
  (errors result = None \/ estimatedFreightRates result = None)
  /\ errors result <> Some []
  /\ (errors result = None <-> errorsOf raw = [])
  /\ (estimatedFreightRates result <> None
      <-> errorsOf raw = [] /\ Raw.estimatedFreightRates (response raw) <> None)
  /\ (errorsOf raw = [] ->
      numQuotes result
      = option_map Raw.numQuotes (Raw.estimatedFreightRates (response raw)))
  /\ (errorsOf raw <> [] -> numQuotes result = None)
  /\ rateLimit result = None.
Proof.
  intros result. subst result. rewrite transformResponse_errors.
  destruct (errorsOf raw) as [|m ms].
  - unfold transformRates.
    destruct (Raw.estimatedFreightRates (response raw)) as [rates|].
    + assert (H : exists rs,
                 match Raw.modes rates with
                 | Some modeData =>
                     if Raw.numQuotes rates =? 0
                     then set_estimatedFreightRates
                            (set_numQuotes emptyQuoteResponse (Raw.numQuotes rates)) []
                     else set_estimatedFreightRates
                            (set_numQuotes emptyQuoteResponse (Raw.numQuotes rates))
                            (map flattenMode
                               match modeData with
                               | Raw.One m => [m]
                               | Raw.Many ms => ms
                               end)
                 | None => set_estimatedFreightRates
                             (set_numQuotes emptyQuoteResponse (Raw.numQuotes rates)) []
                 end = successOutcome rs (Raw.numQuotes rates)).
      { destruct (Raw.modes rates) as [md|]; [|now exists []].
        destruct (Raw.numQuotes rates =? 0); eexists; reflexivity. }
      destruct H as (rs & ->). cbn.
      repeat split; intros;
        first [reflexivity | discriminate | congruence
               | (left; reflexivity) | tauto].
    + cbn. repeat split; intros;
        first [reflexivity | discriminate | congruence
               | (left; reflexivity) | tauto].
  - cbn. repeat split; intros;
      first [reflexivity | discriminate | congruence
             | (right; reflexivity) | tauto
             | match goal with H : _ /\ _ |- _ => destruct H; discriminate end].
Qed.

(** ** The order and the names of the parameters *)

Section Parameters.

Variable numToString : Q -> string.

Lemma distinct_NoDup (names : list string) :
  distinct names = true -> NoDup names.
Proof.
  induction names as [|name rest IH]; simpl; intros H; constructor.
  - apply andb_prop in H. destruct H as [H _].
    intros Hin. apply negb_true_iff in H.
    assert (existsb (String.eqb name) rest = true)
      by (apply existsb_exists; exists name; split;
          [assumption | apply String.eqb_refl]).
    congruence.
  - apply IH. apply andb_prop in H. tauto.
Qed.

(** Each optional step of [buildParams] sets the parameter's text, if any. *)
Lemma setMeasure_setOptional (name : string) (value : option Q)
  (unit : option string) (ps : URLSearchParams.t) :
  setMeasure numToString name value unit ps
  = setOptional name (measureText numToString value unit) ps.
Proof. destruct value; reflexivity. Qed.

Lemma setIfTruthy_setOptional (name : string) (value : option string)
  (ps : URLSearchParams.t) :
  setIfTruthy name value ps = setOptional name (nonEmptyText value) ps.
Proof.
  destruct value as [v|]; [|reflexivity].
  unfold setIfTruthy, nonEmptyText. destruct (JS.truthy v); reflexivity.
Qed.

Lemma quantity_setOptional (quantity : option Q) (ps : URLSearchParams.t) :
  match quantity with
  | Some q =>
      if negb (Qle_bool q 1)
      then URLSearchParams.set "quantity" (numToString q) ps
      else ps
  | None => ps
  end = setOptional "quantity" (quantityText numToString quantity) ps.
Proof.
  destruct quantity as [q|]; [|reflexivity].
  unfold quantityText. destruct (Qle_bool q 1); reflexivity.
Qed.

Lemma estimate_setOptional (estimate : option bool) (ps : URLSearchParams.t) :
  match estimate with
  | Some true => URLSearchParams.set "estimate" "true" ps
  | _ => ps
  end = setOptional "estimate" (estimateText estimate) ps.
Proof. destruct estimate as [[|]|]; reflexivity. Qed.

Lemma weight_set (weight : Q) (weightUnit : option string)
  (ps : URLSearchParams.t) :
  match explicitWeightUnit weightUnit with
  | Some u => URLSearchParams.set "weight" (numToString weight ++ u) ps
  | None => URLSearchParams.set "weight" (numToString weight) ps
  end = URLSearchParams.set "weight" (weightText numToString weight weightUnit) ps.
Proof.
  unfold weightText. destruct (explicitWeightUnit weightUnit); reflexivity.
Qed.

Lemma buildParams_steps (o : QuoteOptions.t) :
  buildParams numToString o
  = URLSearchParams.set "format" "json"
      (setOptional "hazCode" (nonEmptyText (QuoteOptions.hazCode o))
      (setOptional "estimate" (estimateText (QuoteOptions.estimate o))
      (setOptional "mode" (nonEmptyText (QuoteOptions.mode o))
      (setOptional "quantity" (quantityText numToString (QuoteOptions.quantity o))
      (setOptional "volume"
         (measureText numToString (QuoteOptions.volume o)
            (QuoteOptions.volumeUnit o))
      (setOptional "height"
         (measureText numToString (QuoteOptions.height o)
            (QuoteOptions.dimensionUnit o))
      (setOptional "length"
         (measureText numToString (QuoteOptions.length o)
            (QuoteOptions.dimensionUnit o))
      (setOptional "width"
         (measureText numToString (QuoteOptions.width o)
            (QuoteOptions.dimensionUnit o))
      (URLSearchParams.set "weight"
         (weightText numToString (QuoteOptions.weight o) (QuoteOptions.weightUnit o))
      (URLSearchParams.set "loadtype" (QuoteOptions.loadtype o)
      (URLSearchParams.set "destination" (QuoteOptions.destination o)
      (URLSearchParams.set "origin" (QuoteOptions.origin o) [])))))))))))).
Proof.
  unfold buildParams, URLSearchParams.empty. cbv zeta.
  rewrite !setIfTruthy_setOptional, estimate_setOptional, quantity_setOptional,
    !setMeasure_setOptional, weight_set.
  reflexivity.
Qed.

(** The steps never overwrite one another. *)
Lemma steps_in_order (origin destination loadtype weight : string)
  (width length height volume quantity mode estimate hazCode : option string) :
  let params :=
    URLSearchParams.set "format" "json"
      (setOptional "hazCode" hazCode
      (setOptional "estimate" estimate
      (setOptional "mode" mode
      (setOptional "quantity" quantity
      (setOptional "volume" volume
      (setOptional "height" height
      (setOptional "length" length
      (setOptional "width" width
      (URLSearchParams.set "weight" weight
      (URLSearchParams.set "loadtype" loadtype
      (URLSearchParams.set "destination" destination
      (URLSearchParams.set "origin" origin [])))))))))))) in
  let before :=
    ([("origin", origin); ("destination", destination); ("loadtype", loadtype);
      ("weight", weight)]
     ++ optionalParam "width" width ++ optionalParam "length" length
     ++ optionalParam "height" height ++ optionalParam "volume" volume
     ++ optionalParam "quantity" quantity)%list in
  let after := (optionalParam "hazCode" hazCode ++ [("format", "json")])%list in
  params = (before ++ optionalParam "mode" mode
            ++ optionalParam "estimate" estimate ++ after)%list
  /\ distinct (map fst params) = true
  /\ URLSearchParams.delete "mode" params
     = (before ++ optionalParam "estimate" estimate ++ after)%list
  /\ URLSearchParams.get "format" params = Some "json"
  /\ URLSearchParams.get "quantity" params = quantity.
Proof.
  destruct width, length, height, volume, quantity, mode, estimate, hazCode;
    vm_compute; repeat split.
Qed.

(** What the steps of [buildParams] leave behind. *)
Lemma buildParams_steps_in_order (o : QuoteOptions.t) :
  buildParams numToString o = paramsInOrder numToString o
  /\ distinct (map fst (buildParams numToString o)) = true
  /\ URLSearchParams.get "format" (buildParams numToString o) = Some "json"
  /\ URLSearchParams.get "quantity" (buildParams numToString o)
     = quantityText numToString (QuoteOptions.quantity o).
Proof.
  rewrite buildParams_steps.
  destruct (steps_in_order (QuoteOptions.origin o) (QuoteOptions.destination o)
              (QuoteOptions.loadtype o)
              (weightText numToString (QuoteOptions.weight o)
                 (QuoteOptions.weightUnit o))
              (measureText numToString (QuoteOptions.width o)
                 (QuoteOptions.dimensionUnit o))
              (measureText numToString (QuoteOptions.length o)
                 (QuoteOptions.dimensionUnit o))
              (measureText numToString (QuoteOptions.height o)
                 (QuoteOptions.dimensionUnit o))
              (measureText numToString (QuoteOptions.volume o)
                 (QuoteOptions.volumeUnit o))
              (quantityText numToString (QuoteOptions.quantity o))
              (nonEmptyText (QuoteOptions.mode o))
              (estimateText (QuoteOptions.estimate o))
              (nonEmptyText (QuoteOptions.hazCode o)))
    as (Hord & Hdist & _ & Hformat & Hquantity).
  cbv zeta in Hord, Hdist, Hformat, Hquantity.
  repeat split; assumption.
Qed.

(** X8.  [buildParams] sends the parameters in a fixed order, each name at
    most once: [origin], [destination], [loadtype] and [weight] always, then
    those of [width], [length], [height], [volume] that are provided,
    [quantity] only when it is greater than 1, [mode] when non-empty,
    [estimate=true] when requested, [hazCode] when non-empty, and last
    [format=json], which no option can change or remove. *)
Theorem buildParams_in_order (o : QuoteOptions.t) :
  buildParams numToString o = paramsInOrder numToString o
  /\ NoDup (map fst (buildParams numToString o))
  /\ URLSearchParams.get "format" (buildParams numToString o) = Some "json"
  /\ URLSearchParams.get "quantity" (buildParams numToString o)
     = match QuoteOptions.quantity o with
       | Some q => if Qle_bool q 1 then None else Some (numToString q)
       | None => None
       end.
Proof.
  destruct (buildParams_steps_in_order o) as (Hord & Hdist & Hformat & Hquantity).
  split; [exact Hord|]. split; [now apply distinct_NoDup|].
  split; [exact Hformat | exact Hquantity].
Qed.

End Parameters.

(** ** Estimate and compare requests *)

Lemma get_delete_same (k : string) (ps : URLSearchParams.t) :
  URLSearchParams.get k (URLSearchParams.delete k ps) = None.
Proof.
  unfold URLSearchParams.delete.
  induction ps as [|[k1 v1] ps IH]; simpl; [reflexivity|].
  destruct (String.eqb_spec k1 k) as [->|ne]; simpl; [exact IH|].
  destruct (String.eqb_spec k1 k); [contradiction | exact IH].
Qed.

Section Variants.

Variable clock : nat -> Z.
Variable toLocaleTimeString : Z -> string.
Variable numToString : Q -> string.
Variable encode : string -> string.
Variable upstream : HttpRequest -> FetchResult.
Variable config : FreightosConfig.

Lemma delete_mode_in_order (o : QuoteOptions.t) :
  URLSearchParams.delete "mode" (buildParams numToString o)
  = (paramsBeforeMode numToString o
     ++ optionalParam "estimate" (estimateText (QuoteOptions.estimate o))
     ++ paramsAfterEstimate o)%list.
Proof.
  rewrite buildParams_steps.
  exact (proj1 (proj2 (proj2
           (steps_in_order (QuoteOptions.origin o) (QuoteOptions.destination o)
              (QuoteOptions.loadtype o)
              (weightText numToString (QuoteOptions.weight o)
                 (QuoteOptions.weightUnit o))
              (measureText numToString (QuoteOptions.width o)
                 (QuoteOptions.dimensionUnit o))
              (measureText numToString (QuoteOptions.length o)
                 (QuoteOptions.dimensionUnit o))
              (measureText numToString (QuoteOptions.height o)
                 (QuoteOptions.dimensionUnit o))
              (measureText numToString (QuoteOptions.volume o)
                 (QuoteOptions.volumeUnit o))
              (quantityText numToString (QuoteOptions.quantity o))
              (nonEmptyText (QuoteOptions.mode o))
              (estimateText (QuoteOptions.estimate o))
              (nonEmptyText (QuoteOptions.hazCode o)))))).
Qed.

(** X9.  [compareRates] sends the parameters of [getQuote] in the same
    order with [mode] left out and nothing else changed, whatever [mode]
    the options carry: it behaves as [getQuote] on the options without
    their [mode]. *)
Theorem compareRates_omits_mode (o : QuoteOptions.t) (w : World) :
  let sent := URLSearchParams.delete "mode" (buildParams numToString o) in
  buildParams numToString o
  = (paramsBeforeMode numToString o
     ++ optionalParam "mode" (nonEmptyText (QuoteOptions.mode o))
     ++ optionalParam "estimate" (estimateText (QuoteOptions.estimate o))
     ++ paramsAfterEstimate o)%list
  /\ sent = (paramsBeforeMode numToString o
             ++ optionalParam "estimate" (estimateText (QuoteOptions.estimate o))
             ++ paramsAfterEstimate o)%list
  /\ URLSearchParams.get "mode" sent = None
  /\ compareRates clock toLocaleTimeString numToString encode upstream config o w
     = getQuote clock toLocaleTimeString numToString encode upstream config
         (withoutMode o) w.
Proof.
  intros sent. subst sent.
  split; [apply buildParams_steps_in_order|].
  split; [apply delete_mode_in_order|].
  split; [apply get_delete_same|].
  unfold compareRates, getQuote. cbv zeta. f_equal.
  rewrite delete_mode_in_order.
  rewrite (proj1 (buildParams_steps_in_order numToString (withoutMode o))).
  reflexivity.
Qed.

(** X10.  [getQuoteEstimate] sends [estimate=true] whatever the options say
    about [estimate], at the place [getQuote] would send it, with every
    other parameter as [getQuote] sends it: it is [request] on the
    parameters of [getQuote] with [estimate=true] in the place of the
    optional [estimate].  On options that already ask for an estimate the
    two behave alike. *)
Theorem getQuoteEstimate_forces_estimate (o : QuoteOptions.t) (w : World) :
  let run := request clock toLocaleTimeString encode upstream config in
  getQuoteEstimate clock toLocaleTimeString numToString encode upstream config o w
  = run (paramsBeforeMode numToString o
         ++ optionalParam "mode" (nonEmptyText (QuoteOptions.mode o))
         ++ [("estimate", "true")]
         ++ paramsAfterEstimate o)%list w
  /\ getQuote clock toLocaleTimeString numToString encode upstream config o w
     = run (paramsBeforeMode numToString o
            ++ optionalParam "mode" (nonEmptyText (QuoteOptions.mode o))
            ++ optionalParam "estimate" (estimateText (QuoteOptions.estimate o))
            ++ paramsAfterEstimate o)%list w
  /\ buildParams numToString (withEstimate o)
     = (paramsBeforeMode numToString o
        ++ optionalParam "mode" (nonEmptyText (QuoteOptions.mode o))
        ++ [("estimate", "true")]
        ++ paramsAfterEstimate o)%list
  /\ buildParams numToString o
     = (paramsBeforeMode numToString o
        ++ optionalParam "mode" (nonEmptyText (QuoteOptions.mode o))
        ++ optionalParam "estimate" (estimateText (QuoteOptions.estimate o))
        ++ paramsAfterEstimate o)%list
  /\ (QuoteOptions.estimate o = Some true ->
      getQuoteEstimate clock toLocaleTimeString numToString encode upstream config
        o w
      = getQuote clock toLocaleTimeString numToString encode upstream config o w).
Proof.
  intros run. subst run.
  assert (Hest : buildParams numToString (withEstimate o)
                 = (paramsBeforeMode numToString o
                    ++ optionalParam "mode" (nonEmptyText (QuoteOptions.mode o))
                    ++ [("estimate", "true")]
                    ++ paramsAfterEstimate o)%list).
  { rewrite (proj1 (buildParams_steps_in_order numToString (withEstimate o))).
    reflexivity. }
  assert (Hplain : buildParams numToString o
                   = (paramsBeforeMode numToString o
                      ++ optionalParam "mode" (nonEmptyText (QuoteOptions.mode o))
                      ++ optionalParam "estimate"
                           (estimateText (QuoteOptions.estimate o))
                      ++ paramsAfterEstimate o)%list)
    by apply buildParams_steps_in_order.
  split; [|split; [|split; [exact Hest | split; [exact Hplain|]]]].
  - unfold getQuoteEstimate. cbv zeta. now rewrite Hest.
  - unfold getQuote. cbv zeta. now rewrite Hplain.
  - intros He. unfold getQuoteEstimate, getQuote. cbv zeta.
    rewrite Hest, Hplain, He. reflexivity.
Qed.

End Variants.

(** ** The command-line views *)

Ltac view_cases :=
  intros;
  repeat match goal with
         | H : ?x <> ?x |- _ => now elim H
         | H : _ /\ _ |- _ => destruct H
         | H : exists _, _ |- _ => destruct H
         | H : Some _ = None |- _ => discriminate H
         | H : None = Some _ |- _ => discriminate H
         | H : _ :: _ = [] |- _ => discriminate H
         | H : true = false |- _ => discriminate H
         | H : Some ?x = Some ?y |- _ => injection H as H; try subst
         end;
  try reflexivity; try discriminate; try congruence.

Section Views.

Variable clock : nat -> Z.
Variable toLocaleTimeString : Z -> string.
Variable toISOString : Z -> string.
Variable numToString : Q -> string.

(** X11.  The [status] label that [formatRateLimitStatus] shows for the
    current status follows the count of calls inside the window: "OK" below
    80, "LOW" from 80 to 99, "EXHAUSTED" from 100 on.  So the label is "OK"
    exactly when the status has no warning, and "EXHAUSTED" exactly when
    the pre-flight check refuses a call. *)
Theorem status_label_follows_count (w : World) :
  let count := callsInWindow clock w in
  exists st,
    fst (getRateLimitStatus clock toLocaleTimeString w) = Return st
    /\ let view := formatRateLimitStatus toISOString st in
       (View.status view = "OK" <-> count < 80)
       /\ (View.status view = "LOW" <-> 80 <= count < 100)
       /\ (View.status view = "EXHAUSTED" <-> 100 <= count)
       /\ (View.status view = "OK" <-> warning st = None)
       /\ (View.status view = "EXHAUSTED"
           <-> fst (checkRateLimit clock toLocaleTimeString w) = Return (false, st))
       /\ View.percentUsed view = JS.show count ++ "%"
       /\ View.remaining view = Z.max 0 (100 - count).
Proof.
  intros count.
  rewrite checkRateLimit_run, getRateLimitStatus_run. cbv zeta. cbn [fst].
  set (recent := validCalls _ _).
  assert (Hc : count = Z.of_nat (List.length recent)) by reflexivity.
  exists (statusOf toLocaleTimeString recent). split; [reflexivity|].
  unfold formatRateLimitStatus.
  cbn [View.status View.percentUsed View.remaining].
  rewrite statusOf_warning, statusOf_percentUsed, statusOf_remaining.
  cbv zeta. rewrite <- ?Hc. unfold RATE_LIMIT.
  destruct (Z.gtb_spec (Z.max 0 (100 - count)) 20) as [H20|H20].
  - destruct (Z.geb_spec count 100); [lia|].
    destruct (Z.geb_spec count 80); [lia|].
    destruct (Z.gtb_spec (Z.max 0 (100 - count)) 0); [|lia].
    repeat split; intros; first [reflexivity | discriminate | lia | congruence].
  - destruct (Z.gtb_spec (Z.max 0 (100 - count)) 0) as [H0|H0].
    + destruct (Z.geb_spec count 100); [lia|].
      destruct (Z.geb_spec count 80); [|lia].
      repeat split; intros; first [reflexivity | discriminate | lia | congruence].
    + destruct (Z.geb_spec count 100); [|lia].
      repeat split; intros; first [reflexivity | discriminate | lia | congruence].
Qed.

(** The view of a response normalized from a document without error
    messages, with a status attached. *)
Lemma format_normalized (raw : RawApiResponse) (st : RateLimitStatus) :
  errorsOf raw = [] ->
  let data := set_rateLimit (transformResponse raw) st in
  let view := formatQuoteResponse toISOString numToString data in
  View.success view = true
  /\ View.errors view = None
  /\ View.rateLimit view = Some (formatRateLimitStatus toISOString st)
  /\ (View.message view <> None
      <-> exists rates, Raw.estimatedFreightRates (response raw) = Some rates
                        /\ Raw.numQuotes rates = 0)
  /\ (View.message view <> None -> View.rateCount view = Some 0)
  /\ (forall shown,
        View.rates view = Some shown ->
        shown <> []
        /\ View.rateCount view = Some (Z.of_nat (List.length shown))
        /\ exists entries,
             estimatedFreightRates data = Some entries
             /\ shown = map (formatRate numToString) entries).
Proof.
  intros Hnone data view. subst view data.
  rewrite transformResponse_errors, Hnone.
  unfold transformRates.
  destruct (Raw.estimatedFreightRates (response raw)) as [rates|].
  - assert (H : exists entries,
               match Raw.modes rates with
               | Some modeData =>
                   if Raw.numQuotes rates =? 0
                   then set_estimatedFreightRates
                          (set_numQuotes emptyQuoteResponse (Raw.numQuotes rates)) []
                   else set_estimatedFreightRates
                          (set_numQuotes emptyQuoteResponse (Raw.numQuotes rates))
                          (map flattenMode
                             match modeData with
                             | Raw.One m => [m]
                             | Raw.Many ms => ms
                             end)
               | None => set_estimatedFreightRates
                           (set_numQuotes emptyQuoteResponse (Raw.numQuotes rates)) []
               end = successOutcome entries (Raw.numQuotes rates)
               /\ (Raw.numQuotes rates = 0 -> entries = [])).
    { destruct (Raw.modes rates) as [md|]; [|now exists []].
      destruct (Z.eqb_spec (Raw.numQuotes rates) 0);
        eexists; (split; [reflexivity|]); [reflexivity | contradiction]. }
    destruct H as (entries & -> & Hzero).
    unfold formatQuoteResponse, hasErrors, successOutcome, set_rateLimit.
    cbn [estimatedFreightRates numQuotes errors rateLimit].
    destruct entries as [|e es].
    + cbn [List.length Nat.ltb Nat.leb].
      destruct (Z.eqb_spec (Raw.numQuotes rates) 0) as [E0|N0];
        cbn [View.success View.message View.rates View.rateCount View.errors
             View.rateLimit];
        repeat split; view_cases; eauto.
    + replace (0 <? List.length (e :: es))%nat with true by reflexivity.
      cbn [View.success View.message View.rates View.rateCount View.errors
           View.rateLimit].
      repeat split; view_cases; eauto.
      * specialize (Hzero ltac:(assumption)). discriminate.
      * cbn [List.length]. rewrite length_map. reflexivity.
  - cbn. repeat split; view_cases; eauto.
Qed.

End Views.

(** ** Recording and reading back *)

Lemma validCalls_idempotent_later (now later : Z) (stored : list Z) :
  now <= later ->
  validCalls later (validCalls now stored) = validCalls later stored.
Proof.
  intros Hle. unfold validCalls.
  induction stored as [|x stored IH]; simpl; [reflexivity|].
  destruct (Z.gtb_spec x (now - RATE_LIMIT_WINDOW_MS)) as [Hn|Hn]; simpl.
  - now rewrite IH.
  - destruct (Z.gtb_spec x (later - RATE_LIMIT_WINDOW_MS)); [lia | exact IH].
Qed.

Lemma validCalls_app (now : Z) (a b : list Z) :
  validCalls now (a ++ b) = (validCalls now a ++ validCalls now b)%list.
Proof. apply filter_app. Qed.

Section ReadBack.

Variable clock : nat -> Z.
Variable toLocaleTimeString : Z -> string.
Variable toISOString : Z -> string.
Variable numToString : Q -> string.
Variable encode : string -> string.
Variable upstream : HttpRequest -> FetchResult.
Variable config : FreightosConfig.

(** X12.  Whatever [request] returns, the command line shows it with its
    rate-limit view and keeps the outcomes apart.  [success] is false
    exactly when the pre-flight check refused the call (no network call was
    issued).  Otherwise the view has no error list and comes from a resolved
    response whose document holds no error message: the "no rates" message,
    with rate count 0, appears exactly when that document's [numQuotes] is
    0, and rates appear only as a non-empty list, one view per normalized
    rate, with their number as the rate count. *)
Theorem returned_quote_view (params : URLSearchParams.t) (w : World)
  (data : QuoteResponse) :
  let rq := requestFor encode config params in
  let result := request clock toLocaleTimeString encode upstream config params w in
  fst result = Return data ->
  let view := formatQuoteResponse toISOString numToString data in
  View.rateLimit view <> None
  /\ (View.success view = false <-> network (snd result) = network w)
  /\ (View.success view = false ->
      View.errors view <> None /\ View.rates view = None
      /\ View.message view = None)
  /\ (View.success view = true ->
      View.errors view = None
      /\ exists r raw,
           upstream rq = Resolved r
           /\ HttpResponse.json r = Some raw
           /\ errorsOf raw = []
           /\ (View.message view <> None
               <-> exists rates,
                     Raw.estimatedFreightRates (response raw) = Some rates
                     /\ Raw.numQuotes rates = 0)
           /\ (View.message view <> None -> View.rateCount view = Some 0)
           /\ (forall shown,
                 View.rates view = Some shown ->
                 shown <> []
                 /\ View.rateCount view = Some (Z.of_nat (List.length shown))
                 /\ exists entries,
                      estimatedFreightRates data = Some entries
                      /\ shown = map (formatRate numToString) entries)).
Proof.
  intros rq result Hret view.
  assert (Hgrow : forall l : list HttpRequest, (l ++ [rq])%list <> l).
  { intros l H. apply (f_equal (@List.length _)) in H.
    rewrite length_app in H. simpl in H. lia. }
  destruct (request_cases clock toLocaleTimeString encode upstream config params w)
    as [[H0 Hr]|[[Hrem (reason & Hup & Hr)]|[Hrem (r & Hup & Hw & Hdata)]]];
    fold rq result in Hr || fold rq result in Hw, Hdata.
  - rewrite Hr in Hret |- *. cbn [fst snd tick network] in *.
    injection Hret as <-. subst view.
    unfold formatQuoteResponse, hasErrors.
    cbn [estimatedFreightRates numQuotes errors rateLimit List.length Nat.ltb
         Nat.leb View.success View.errors View.rates View.message
         View.rateLimit].
    repeat split; view_cases.
  - rewrite Hr in Hret. discriminate.
  - destruct (Hdata data Hret) as (raw & Hj & He & Hsnd & Hd).
    assert (Hnet : network (snd result) = (network w ++ [rq])%list).
    { rewrite Hsnd, recordCall_run. cbn [snd].
      destruct (cacheWritable _); reflexivity. }
    set (current := statusOf _ _) in Hd.
    destruct (format_normalized toISOString numToString raw current He)
      as (Hs & Herr & Hrl & Hmsg & Hcount & Hrates).
    cbv zeta in Hs, Herr, Hrl, Hmsg, Hcount, Hrates.
    subst view. rewrite Hd.
    split; [rewrite Hrl; discriminate|]. split; [|split].
    + rewrite Hs, Hnet. split; [discriminate|]. intros H. now apply Hgrow in H.
    + rewrite Hs. discriminate.
    + intros _. split; [exact Herr|]. exists r, raw.
      repeat split; try assumption; try apply Hmsg; try apply Hrates; auto.
Qed.

(** X13.  A recorded call is counted by the next status query.  When the
    file can be written, the clock does not run backwards and less than
    one window passes between recording and querying, the status computed
    after [recordCall] counts exactly one call more than the stored list
    would have given at that moment without the recording. *)
Theorem recorded_call_is_counted (w : World) :
  cacheWritable w = true ->
  clock (ticks w) <= clock (S (S (ticks w))) ->
  clock (S (S (ticks w))) - clock (S (ticks w)) < RATE_LIMIT_WINDOW_MS ->
  let w' := snd (recordCall clock w) in
  exists st,
    fst (getRateLimitStatus clock toLocaleTimeString w') = Return st
    /\ callsInLastHour st
       = Z.of_nat (List.length
                     (validCalls (clock (S (S (ticks w))))
                        (persisted (rateLimitFile w)))) + 1
    /\ 1 <= callsInLastHour st.
Proof.
  intros Hw Hmono Hfresh w'. subst w'.
  rewrite recordCall_run, Hw. cbn [snd].
  rewrite getRateLimitStatus_run.
  cbn [fst written tick ticks rateLimitFile persisted].
  eexists. split; [reflexivity|].
  rewrite statusOf_callsInLastHour, validCalls_app, length_app.
  rewrite validCalls_idempotent_later by exact Hmono.
  assert (Hnew : validCalls (clock (S (S (ticks w)))) [clock (S (ticks w))]
                 = [clock (S (ticks w))]).
  { unfold validCalls. cbn [filter].
    destruct (Z.gtb_spec (clock (S (ticks w)))
                (clock (S (S (ticks w))) - RATE_LIMIT_WINDOW_MS));
      [reflexivity | lia]. }
  rewrite Hnew. cbn [List.length]. lia.
Qed.

(** X14.  A quote refused by the pre-flight check reaches the command line
    as a failure: formatting what [getQuote] returns gives [success] false,
    the one "Rate limit exceeded" message, no rates, no "no rates" message,
    and a rate-limit view labelled "EXHAUSTED" that shows the reset time. *)
Theorem refused_quote_is_shown_exhausted (w : World) (st : RateLimitStatus)
  (options : QuoteOptions.t) :
  fst (getRateLimitStatus clock toLocaleTimeString w) = Return st ->
  remaining st = 0 ->
  exists data limits reset,
    fst (getQuote clock toLocaleTimeString numToString encode upstream config
           options w) = Return data
    /\ let view := formatQuoteResponse toISOString numToString data in
       View.success view = false
       /\ View.errors view = Some [rateLimitExceeded toLocaleTimeString st]
       /\ View.rates view = None
       /\ View.message view = None
       /\ View.rateLimit view = Some limits
       /\ View.status limits = "EXHAUSTED"
       /\ resetsAt st = Some reset
       /\ View.resetsAt limits = Some (toISOString reset).
Proof.
  intros Hst Hrem.
  assert (Hreset : exists reset, resetsAt st = Some reset).
  { pose proof Hst as Hst'. rewrite getRateLimitStatus_run in Hst'.
    cbn [fst] in Hst'. injection Hst' as <-.
    destruct (exhausted_resetsAt toLocaleTimeString _ Hrem) as (o & _ & _ & Hr).
    eauto. }
  destruct Hreset as (reset & Hreset).
  unfold getQuote. cbv zeta.
  rewrite (request_denied clock toLocaleTimeString encode upstream config
             _ w st Hst Hrem).
  cbn [fst]. eexists. exists (formatRateLimitStatus toISOString st), reset.
  split; [reflexivity|].
  unfold formatQuoteResponse, hasErrors.
  cbn [estimatedFreightRates numQuotes errors rateLimit List.length Nat.ltb Nat.leb
       View.success View.errors View.rates View.message View.rateLimit].
  unfold formatRateLimitStatus. cbn [View.status View.resetsAt].
  rewrite Hrem, Hreset. repeat split.
Qed.

End ReadBack.

(** ** Instances of the further properties *)

Lemma resetsAt_is_first_expiry_witness :
  let w := Sample.world (Sample.history 100) true in
  resetsAt (Sample.statusAt (Sample.history 100)) = Some 6600001
  /\ Sample.clock 0 < 6600001
  /\ remaining (statusOf Sample.toLocaleTimeString
                  (validCalls 6600001 (Sample.history 100))) > 0.
Proof.
  intros w.
  assert (Hr : resetsAt (Sample.statusAt (Sample.history 100)) = Some 6600001)
    by (vm_compute; reflexivity).
  destruct (resetsAt_is_first_expiry Sample.clock Sample.toLocaleTimeString w
              (Sample.statusAt (Sample.history 100)) 6600001 eq_refl Hr)
    as (_ & Hfuture & _ & _ & Hquota).
  split; [exact Hr|]. split; [exact Hfuture|].
  apply Hquota. vm_compute. reflexivity.
Defined.

Lemma unusable_file_is_empty_history_witness :
  let w := {| rateLimitFile := FileCorrupt; cacheWritable := true;
              ticks := 0; network := [] |} in
  rateLimitFile w = FileCorrupt
  /\ rateLimitFile (snd (recordCall Sample.clock w)) = FileJson (Some [4001000]).
Proof.
  intros w. split; [reflexivity|].
  destruct (unusable_file_is_empty_history Sample.clock Sample.toLocaleTimeString w
              (or_intror (or_introl eq_refl))) as (_ & _ & Hrec).
  exact (Hrec eq_refl).
Defined.

Lemma rejected_fetch_is_not_recorded_witness :
  let w := Sample.world (Sample.history 3) true in
  let result :=
    request Sample.clock Sample.toLocaleTimeString Sample.encode Scenario.offline
      Sample.config [] w in
  0 < remaining (Sample.statusAt (Sample.history 3))
  /\ fst result = Throw "fetch failed"
  /\ rateLimitFile (snd result) = rateLimitFile w.
Proof.
  intros w result.
  assert (Hrem : 0 < remaining (Sample.statusAt (Sample.history 3)))
    by (vm_compute; reflexivity).
  split; [exact Hrem|].
  destruct (rejected_fetch_is_not_recorded Sample.clock Sample.toLocaleTimeString
              Sample.encode Scenario.offline Sample.config [] w
              (Sample.statusAt (Sample.history 3)) "fetch failed"
              eq_refl Hrem eq_refl)
    as (Hthrow & _ & Hfile).
  split; [exact Hthrow | exact Hfile].
Defined.

Lemma sample_clock_monotone (i j : nat) :
  (i <= j)%nat -> Sample.clock i <= Sample.clock j.
Proof. unfold Sample.clock. lia. Defined.

Lemma sequential_requests_keep_quota_witness :
  let w := Sample.world (Sample.history 99) true in
  let upstream := Sample.answering (Sample.okResponse Sample.noQuotes) in
  callsInWindow Sample.clock w <= 100
  /\ callsInWindow Sample.clock
       (fold_left
          (fun world params =>
             snd (request Sample.clock Sample.toLocaleTimeString Sample.encode
                    upstream Sample.config params world))
          [[]; []; []] w)
     <= 100.
Proof.
  intros w upstream.
  assert (Hinv : callsInWindow Sample.clock w <= 100)
    by (vm_compute; discriminate).
  split; [exact Hinv|].
  exact (sequential_requests_keep_quota Sample.clock Sample.toLocaleTimeString
           Sample.encode upstream Sample.config [[]; []; []] w
           sample_clock_monotone Hinv).
Defined.

Lemma recorded_call_is_counted_witness :
  let w := Sample.world (Sample.history 3) true in
  cacheWritable w = true
  /\ exists st,
       fst (getRateLimitStatus Sample.clock Sample.toLocaleTimeString
              (snd (recordCall Sample.clock w))) = Return st
       /\ callsInLastHour st = 4.
Proof.
  intros w. split; [reflexivity|].
  assert (Hmono : Sample.clock (ticks w) <= Sample.clock (S (S (ticks w))))
    by (vm_compute; discriminate).
  assert (Hfresh : Sample.clock (S (S (ticks w))) - Sample.clock (S (ticks w))
                   < RATE_LIMIT_WINDOW_MS) by (vm_compute; reflexivity).
  destruct (recorded_call_is_counted Sample.clock Sample.toLocaleTimeString w
              eq_refl Hmono Hfresh) as (st & Hst & Hcount & _).
  exists st. split; [exact Hst|]. rewrite Hcount. vm_compute. reflexivity.
Defined.

Lemma refused_quote_is_shown_exhausted_witness :
  let w := Sample.world (Sample.history 100) true in
  remaining (Sample.statusAt (Sample.history 100)) = 0
  /\ exists data,
       fst (getQuote Sample.clock Sample.toLocaleTimeString Sample.numToString
              Sample.encode Scenario.offline Sample.config Sample.options w)
       = Return data
       /\ View.success
            (formatQuoteResponse Scenario.toISOString Sample.numToString data)
          = false.
Proof.
  intros w.
  assert (Hrem : remaining (Sample.statusAt (Sample.history 100)) = 0)
    by (vm_compute; reflexivity).
  split; [exact Hrem|].
  destruct (refused_quote_is_shown_exhausted Sample.clock
              Sample.toLocaleTimeString Scenario.toISOString Sample.numToString
              Sample.encode Scenario.offline Sample.config w
              (Sample.statusAt (Sample.history 100)) Sample.options eq_refl Hrem)
    as (data & limits & reset & Hdata & Hfail & _).
  exists data. split; [exact Hdata | exact Hfail].
Defined.

Lemma returned_quote_view_witness :
  let w := Sample.world (Sample.history 3) true in
  let upstream :=
    Sample.answering
      (Sample.okResponse (Sample.rawRates (Some (Raw.One Sample.sea)) 1)) in
  let result :=
    request Sample.clock Sample.toLocaleTimeString Sample.encode upstream
      Sample.config [] w in
  exists data,
    fst result = Return data
    /\ View.success (formatQuoteResponse Scenario.toISOString Sample.numToString data)
       = true
    /\ View.rateLimit
         (formatQuoteResponse Scenario.toISOString Sample.numToString data)
       <> None.
Proof.
  intros w upstream result.
  destruct (fst result) as [data|message] eqn:Hret;
    [|vm_compute in Hret; discriminate Hret].
  exists data. split; [reflexivity|].
  destruct (returned_quote_view Sample.clock Sample.toLocaleTimeString
              Scenario.toISOString Sample.numToString Sample.encode upstream
              Sample.config [] w data Hret) as (Hlimits & Hfail & _).
  split; [|exact Hlimits].
  apply Bool.not_false_is_true. intros Hs.
  apply (proj1 Hfail) in Hs. vm_compute in Hs. discriminate Hs.
Defined.
